(** * HMM shipping tracking automation: a shallow embedding of [browser_auto.py]

    The script drives an external browser agent: it chooses between a replay
    task and a fresh-discovery task depending on whether a stored action
    trace exists, runs the agent with two hooks and a step budget, and
    persists the reduced action trace after a successful fresh run.

    The functions of the script ([anti_detection_hook], [retry_hook],
    [save_actions], [fetch_hmm], [main]) are translated below.  Everything
    the script only calls (the agent framework, the language-model client,
    [json], [random]) is an external collaborator and appears as a field of
    the record [Env]; the results hold for every such environment. *)

From Stdlib Require Import String Ascii ZArith QArith Lqa List Bool Lia.
From stdpp Require Import gmap strings list.

Local Open Scope string_scope.
Local Open Scope list_scope.

(** ** Python values *)

(** The values that travel through the script: JSON-like data, plus opaque
    objects such as the [DOMHistoryElement] reported by the agent framework,
    which [json] cannot serialise.  A [dict] is kept as the list of its
    items in insertion order, which is the order [dict.items()] yields. *)
#[warnings="-register-all"]
Inductive pyval : Type :=
  | PyNone
  | PyBool (b : bool)
  | PyInt (z : Z)
  | PyStr (s : string)
  | PyList (l : list pyval)
  | PyDict (items : list (string * pyval))
  | PyObj (class_name : string).

(** One record of [model_actions()]: a dict from action name to parameters,
    with the auxiliary ['interacted_element'] entry. *)
Definition action_record : Type := list (string * pyval).

Definition interacted_element : string := "interacted_element".

(** ** [save_actions]: the reduction of the trace *)

(** The inner [for action_name, parameters in action.items()] loop.  The
    accumulator is the list [initial_actions]; [append] adds at the end and
    [break] leaves the loop after the first key that is kept. *)
Fixpoint scan_items (items : list (string * pyval))
    (initial_actions : list action_record) : list action_record :=
  match items with
  | [] => initial_actions
  | (action_name, parameters) :: rest =>
      if negb (String.eqb action_name interacted_element)
      then
        let action_dict := [(action_name, parameters)] in
        initial_actions ++ [action_dict]
      else scan_items rest initial_actions
  end.

(** The outer [for action in stored_actions] loop, from a given accumulator. *)
Fixpoint scan_actions (stored_actions : list action_record)
    (initial_actions : list action_record) : list action_record :=
  match stored_actions with
  | [] => initial_actions
  | action :: rest => scan_actions rest (scan_items action initial_actions)
  end.

(** The list [initial_actions] that [save_actions] hands to [json.dump]. *)
Definition reduce_actions (stored_actions : list action_record)
    : list action_record :=
  scan_actions stored_actions [].

(** The Python value of that list. *)
Definition actions_value (l : list action_record) : pyval :=
  PyList (map PyDict l).

(** ** Strings *)

(** Python strings are modelled as character strings; [str.lower] acts on
    the ASCII letters, which is all a serialised page address contains. *)
Definition lower_ascii (c : ascii) : ascii :=
  let n := nat_of_ascii c in
  if (65 <=? n)%nat && (n <=? 90)%nat then ascii_of_nat (n + 32) else c.

Fixpoint lower (s : string) : string :=
  match s with
  | EmptyString => EmptyString
  | String c rest => String (lower_ascii c) (lower rest)
  end.

Fixpoint is_prefix (p s : string) : bool :=
  match p, s with
  | EmptyString, _ => true
  | String _ _, EmptyString => false
  | String a p', String b s' => Ascii.eqb a b && is_prefix p' s'
  end.

(** [needle in hay] on Python strings. *)
Fixpoint contains (needle hay : string) : bool :=
  is_prefix needle hay ||
  match hay with
  | EmptyString => false
  | String _ rest => contains needle rest
  end.

(** The double-quote and newline characters. *)
Definition dq : string := String (ascii_of_nat 34) EmptyString.
Definition nl : string := String (ascii_of_nat 10) EmptyString.

(** ** The agent *)

Record Llm : Type := mkLlm {
  llm_model : string;
  llm_api_key : string
}.

(** The keyword arguments of [Agent(...)]; an argument that is not passed
    is [None]. *)
Record AgentConfig : Type := mkConfig {
  cfg_task : string;
  cfg_message_context : option string;
  cfg_initial_actions : option pyval;
  cfg_llm : Llm
}.

(** The history an agent run returns: what [final_result()] and
    [model_actions()] answer, and whether the agent declared itself done. *)
Record History : Type := mkHistory {
  final_result : option string;
  model_actions : list action_record;
  is_done : bool
}.

(** The agent object as the script and its hooks see it: the arguments it
    was constructed with, the instructions enqueued through
    [add_new_task], the address of the page it is on, the pointer moves
    made on that page, and its history. *)
Record Agent : Type := mkAgent {
  agent_cfg : AgentConfig;
  added_tasks : list string;
  page_url : string;
  mouse_moves : list (Z * Z);
  history : History
}.

(** ** Exceptions, the world and the monad of the script *)

(** A raised object is an instance of [Exception] or only of
    [BaseException] ([KeyboardInterrupt], [asyncio.CancelledError], ...);
    [str(e)] is kept as the message. *)
Inductive exn : Type :=
  | PyException (msg : string)
  | PyBaseException (msg : string).

Definition exn_str (e : exn) : string :=
  match e with PyException m | PyBaseException m => m end.

Definition is_Exception (e : exn) : bool :=
  match e with PyException _ => true | PyBaseException _ => false end.

Inductive Res (A : Type) : Type :=
  | Ret (a : A)
  | Raise (e : exn).
Arguments Ret {A} a.
Arguments Raise {A} e.

(** What the script can observe or change outside itself: the files of the
    working directory, standard output, the time slept, the position in the
    random source, and three records of what the agent framework was asked
    to do: the arguments of each [Agent(...)] call, the number of agent
    steps executed, and the history each completed [agent.run] returned. *)
Record World : Type := mkWorld {
  files : gmap string string;
  stdout : list string;
  slept : list Q;
  rng : nat;
  agents : list AgentConfig;
  steps : nat;
  runs : list History
}.

Definition M (A : Type) : Type := World -> Res A * World.

Definition ret {A} (a : A) : M A := fun w => (Ret a, w).

Definition raise {A} (e : exn) : M A := fun w => (Raise e, w).

Definition bind {A B} (c : M A) (k : A -> M B) : M B :=
  fun w =>
    match c w with
    | (Ret a, w') => k a w'
    | (Raise e, w') => (Raise e, w')
    end.

Notation "'let!' x ':=' c 'in' k" := (bind c (fun x => k))
  (at level 10, x name, c at level 100, k at level 200).
Notation "'do!' c 'in' k" := (bind c (fun _ => k))
  (at level 10, c at level 100, k at level 200).

(** [try: body except Exception as e: handler(e)]: only instances of
    [Exception] are caught. *)
Definition try_except {A} (body : M A) (handler : exn -> M A) : M A :=
  fun w =>
    match body w with
    | (Ret a, w') => (Ret a, w')
    | (Raise e, w') =>
        if is_Exception e then handler e w' else (Raise e, w')
    end.

Definition print (line : string) : M unit :=
  fun w =>
    (Ret tt,
     mkWorld (files w) (stdout w ++ [line]) (slept w) (rng w)
             (agents w) (steps w) (runs w)).

Definition sleep (delay : Q) : M unit :=
  fun w =>
    (Ret tt,
     mkWorld (files w) (stdout w) (slept w ++ [delay]) (rng w)
             (agents w) (steps w) (runs w)).

Definition next_draw : M nat :=
  fun w =>
    (Ret (rng w),
     mkWorld (files w) (stdout w) (slept w) (S (rng w))
             (agents w) (steps w) (runs w)).

Definition count_step : M unit :=
  fun w =>
    (Ret tt,
     mkWorld (files w) (stdout w) (slept w) (rng w)
             (agents w) (S (steps w)) (runs w)).

Definition log_agent (cfg : AgentConfig) : M unit :=
  fun w =>
    (Ret tt,
     mkWorld (files w) (stdout w) (slept w) (rng w)
             (agents w ++ [cfg]) (steps w) (runs w)).

Definition log_run (h : History) : M unit :=
  fun w =>
    (Ret tt,
     mkWorld (files w) (stdout w) (slept w) (rng w)
             (agents w) (steps w) (runs w ++ [h])).

Definition path_exists (path : string) : M bool :=
  fun w => (Ret (bool_decide (is_Some (files w !! path))), w).

(** [open(path)] followed by reading the whole text. *)
Definition read_text (path : string) : M string :=
  fun w =>
    match files w !! path with
    | Some text => (Ret text, w)
    | None => (Raise (PyException "No such file or directory"), w)
    end.

(** Replace the content of [path]; [open(path, "w")] does it with the empty
    text, every later write with the text written so far. *)
Definition write_text (path text : string) : M unit :=
  fun w =>
    (Ret tt,
     mkWorld (<[path := text]> (files w)) (stdout w) (slept w) (rng w)
             (agents w) (steps w) (runs w)).

(** ** The external collaborators *)

(** The behaviour of everything the script calls but does not define. *)
Record Env : Type := mkEnv {
  (** [os.getenv("GOOGLE_API_KEY")] *)
  env_api_key : string;
  (** [ChatGoogle(...)]: the exception it raises, if any *)
  env_chat_google : Llm -> option exn;
  (** [json.load] on the text of a file *)
  env_json_load : string -> Res pyval;
  (** [json.dump(v, f, indent=2)]: the text that reaches the file, and the
      exception that interrupts the dump, if any *)
  env_json_dump : pyval -> string * option exn;
  (** [Agent(...)]: raises, or opens a session on a first page *)
  env_agent_init : AgentConfig -> Res string;
  (** one step of the agent: raises, or yields the address of the page it
      ends on and the history so far *)
  env_step : Agent -> Res (string * History);
  (** [await agent.browser_session.get_current_page()]: the exception it
      raises, if any; otherwise the page is the one the agent is on *)
  env_current_page : Agent -> option exn;
  (** [await page.mouse.move(x, y)]: the exception it raises, if any *)
  env_mouse_move : Agent -> Z -> Z -> option exn;
  (** the [n]-th draw of [random.random()] *)
  env_random : nat -> Q;
  (** [random.randint(a, b)] at the [n]-th draw *)
  env_randint : nat -> Z -> Z -> Z
}.

Definition steps_file : string := "agent_action_steps.json".

Definition no_history : History := mkHistory None [] false.

(** Modelled from the spec: [agent.add_new_task] belongs to the agent
    framework, which is not part of the repository.  The spec says that the
    retry hook enqueues an additional instruction for the agent; the
    instructions enqueued so far are [added_tasks].  What the framework
    does with the task it is working on is not modelled: [agent_cfg] only
    records the arguments of [Agent(...)]. *)
Definition add_new_task (new_task : string) (agent : Agent) : Agent :=
  mkAgent (agent_cfg agent) (added_tasks agent ++ [new_task])
          (page_url agent) (mouse_moves agent) (history agent).

(** A completed [page.mouse.move(x, y)], recorded on the page of the
    agent. *)
Definition mouse_move (x y : Z) (agent : Agent) : Agent :=
  mkAgent (agent_cfg agent) (added_tasks agent) (page_url agent)
          (mouse_moves agent ++ [(x, y)]) (history agent).

(** [if final_result:] on a value that is a string or [None]. *)
Definition truthy (final : option string) : bool :=
  match final with
  | None => false
  | Some s => negb (String.eqb s "")
  end.

(** [str(x)] for a value that is a string or [None]. *)
Definition py_str (x : option string) : string :=
  match x with
  | None => "None"
  | Some s => s
  end.

Definition Qlt_bool (x y : Q) : bool := negb (Qle_bool y x).

Definition error_indicators : list string :=
  ["error"; "failed"; "invalid"; "incorrect"; "unable"].

Definition retry_message : string := "Retry to complete the original task".

Definition no_results : string := "No results found".

Definition target_url : string := "http://www.seacargotracking.net/".

(** ** The task prompts *)

Definition pad12 : string := "            ".
Definition pad32 : string := "                                ".

Definition id_sentence (booking_id : string) : string :=
  "Given an HMM booking ID " ++ dq ++ booking_id ++ dq ++
  ", retrieve voyage and arrival from HMM Shipping line.".

Definition answer_format : string :=
  "Voyage: <voyage_number>, Arrival: <arrival_date>".

(** The [task] of the replay branch. *)
Definition replay_task (booking_id : string) : string :=
  id_sentence booking_id.

(** The [message_context] of the replay branch. *)
Definition replay_context (booking_id : string) : string :=
  "Replaying previous actions with new booking ID " ++
    dq ++ booking_id ++ dq ++ nl ++
  pad32 ++ "and return the new voyage number and arrival date in the format " ++
    nl ++
  pad32 ++ answer_format.

(** The [task] of the fresh branch. *)
Definition fresh_task (booking_id : string) : string :=
  nl ++
  pad12 ++ "Your task:" ++ nl ++
  pad12 ++ id_sentence booking_id ++ nl ++
  pad12 ++ "First, navigate to exactly website: " ++ target_url ++ nl ++
  pad12 ++ "Scroll down to find and navigate to the link " ++ dq ++
           "HYUNDAI Merchant Marine (HMM)" ++ dq ++ " and stay on that link" ++ nl ++
  pad12 ++ "Scroll down to find " ++ dq ++ "Track and Trace" ++ dq ++
           " and input the booking ID in the box and search." ++ nl ++
  pad12 ++ "Wait for the results to load or try Refreshing the page " ++
           "only if Blocked by the website." ++ nl ++
  pad12 ++ "Scroll down to find the voyage number and arrival date." ++ nl ++
  pad12 ++ "Only return the Final Answer in the format " ++ dq ++ answer_format ++ dq ++ nl ++
  pad12.

(** ** The script *)

Section Script.

Variable env : Env.

(** *** Calls into the collaborators *)

Definition random_random : M Q :=
  let! n := next_draw in
  ret (env_random env n).

(** [random.uniform(a, b)] is [a + (b - a) * random()]; floating-point
    numbers are idealised as rationals. *)
Definition random_uniform (a b : Q) : M Q :=
  let! r := random_random in
  ret (a + (b - a) * r)%Q.

Definition random_randint (a b : Z) : M Z :=
  let! n := next_draw in
  ret (env_randint env n a b).

Definition chat_google (model api_key : string) : M Llm :=
  let llm := mkLlm model api_key in
  match env_chat_google env llm with
  | None => ret llm
  | Some e => raise e
  end.

Definition json_load (path : string) : M pyval :=
  let! text := read_text path in
  match env_json_load env text with
  | Ret v => ret v
  | Raise e => raise e
  end.

(** [with open(path, "w") as f: json.dump(v, f, indent=2)]: the file is
    truncated when it is opened and holds whatever the dump wrote, also
    when the dump is interrupted by an exception. *)
Definition json_dump (v : pyval) (path : string) : M unit :=
  do! write_text path "" in
  let (text, failure) := env_json_dump env v in
  do! write_text path text in
  match failure with
  | None => ret tt
  | Some e => raise e
  end.

(** [page = await agent.browser_session.get_current_page()]: raises, or
    yields the page the agent is on, whose address is [page_url]. *)
Definition get_current_page (agent : Agent) : M unit :=
  match env_current_page env agent with
  | None => ret tt
  | Some e => raise e
  end.

(** [await page.mouse.move(x, y)]: raises, or moves the pointer. *)
Definition page_mouse_move (x y : Z) (agent : Agent) : M Agent :=
  match env_mouse_move env agent x y with
  | None => ret (mouse_move x y agent)
  | Some e => raise e
  end.

Definition new_agent (cfg : AgentConfig) : M Agent :=
  do! log_agent cfg in
  match env_agent_init env cfg with
  | Ret url => ret (mkAgent cfg [] url [] no_history)
  | Raise e => raise e
  end.

Definition agent_step (agent : Agent) : M Agent :=
  do! count_step in
  match env_step env agent with
  | Ret (url, h) =>
      ret (mkAgent (agent_cfg agent) (added_tasks agent) url (mouse_moves agent) h)
  | Raise e => raise e
  end.

(** Modelled from the spec: the run loop of the agent framework is not part
    of the repository.  The spec says that the pacing hook is invoked before
    every agent step and the retry hook after every agent step, and that the
    run goes to completion or to the step cap. *)
Fixpoint run_steps (on_step_start on_step_end : Agent -> M Agent)
    (max_steps : nat) (agent : Agent) : M Agent :=
  match max_steps with
  | O => ret agent
  | S remaining =>
      let! agent := on_step_start agent in
      let! agent := agent_step agent in
      let! agent := on_step_end agent in
      if is_done (history agent) then ret agent
      else run_steps on_step_start on_step_end remaining agent
  end.

(** Modelled from the spec: [agent.run(on_step_start=..., on_step_end=...,
    max_steps=...)] of the agent framework, which runs the loop above and
    returns the history of the agent. *)
Definition agent_run (agent : Agent)
    (on_step_start on_step_end : Agent -> M Agent) (max_steps : nat)
    : M History :=
  let! agent := run_steps on_step_start on_step_end max_steps agent in
  do! log_run (history agent) in
  ret (history agent).

(** *** The hooks *)

(** Both hooks first obtain the current page, which can fail.  The two
    arguments of [page.mouse.move] are drawn left to right. *)
Definition anti_detection_hook (agent : Agent) : M Agent :=
  do! get_current_page agent in
  let! delay := random_uniform 1 3 in
  do! sleep delay in
  let! r := random_random in
  if Qlt_bool r (3 # 10) then
    let! x := random_randint 100 800 in
    let! y := random_randint 100 600 in
    page_mouse_move x y agent
  else ret agent.

(** [any(err in current_url.lower() for err in error_indicators)] is the
    [existsb] below. *)
Definition retry_hook (agent : Agent) : M Agent :=
  do! get_current_page agent in
  let current_url := page_url agent in
  if existsb (fun err => contains err (lower current_url)) error_indicators
  then
    do! print "Detected failure condition, will retry..." in
    ret (add_new_task retry_message agent)
  else ret agent.

(** *** [save_actions] *)

(** The two loops build [initial_actions] ([reduce_actions]); the file is
    then opened for writing and the list dumped into it. *)
Definition save_actions (stored_actions : list action_record) : M unit :=
  let initial_actions := reduce_actions stored_actions in
  json_dump (actions_value initial_actions) steps_file.

(** *** [fetch_hmm] *)

(** The replay branch of the [try] block. *)
Definition replay_branch (booking_id : string) (llm : Llm) : M (option string) :=
  let! initial_actions := json_load steps_file in
  let! agent := new_agent (mkConfig (replay_task booking_id)
                                    (Some (replay_context booking_id))
                                    (Some initial_actions) llm) in
  let! result := agent_run agent anti_detection_hook retry_hook 20 in
  let final := final_result result in
  if truthy final then ret final
  else ret (Some no_results).

(** The fresh branch of the [try] block. *)
Definition fresh_branch (booking_id : string) (llm : Llm) : M (option string) :=
  let task := fresh_task booking_id in
  let! agent := new_agent (mkConfig task None None llm) in
  let! result := agent_run agent anti_detection_hook retry_hook 20 in
  let final := final_result result in
  if truthy final then
    let stored_actions := model_actions result in
    do! save_actions stored_actions in
    ret final
  else ret (Some no_results).

Definition fetch_body (booking_id : string) (llm : Llm) : M (option string) :=
  let! present := path_exists steps_file in
  if present then replay_branch booking_id llm
  else fresh_branch booking_id llm.

(** [ChatGoogle(...)] is called before the [try] block; the [if]/[else]
    on [steps_file.exists()] is the whole body of the block.  The value is
    the returned string, or [None] when the function ends without a
    [return], as it does after the [except] clause. *)
Definition fetch_hmm (booking_id : string) : M (option string) :=
  let! llm := chat_google "gemini-2.0-flash" (env_api_key env) in
  try_except (fetch_body booking_id llm)
    (fun e =>
       do! print ("Error during cleanup: " ++ exn_str e) in
       ret None).

(** *** [main] *)

Definition main : M unit :=
  let booking_id := "SINI25432400" in
  try_except
    (let! result := fetch_hmm booking_id in
     print ("Results: " ++ py_str result))
    (fun e => print ("Error: " ++ exn_str e)).

End Script.

(** ** Statements about the trace, in the words of the specification *)

Definition is_action_entry (kv : string * pyval) : bool :=
  negb (String.eqb (fst kv) interacted_element).

(** The first key-value pair of a record whose key is not
    ['interacted_element']. *)
Definition first_action_entry (action : action_record)
    : option (string * pyval) :=
  List.find is_action_entry action.

(** The reduction as the specification describes it: every record, in input
    order, contributes its first action entry, or nothing. *)
Definition ordered_reduction (stored : list action_record)
    : list action_record :=
  flat_map (fun action =>
              match first_action_entry action with
              | Some kv => [[kv]]
              | None => []
              end) stored.

Definition has_action (action : action_record) : bool :=
  existsb is_action_entry action.

(** An emitted record keeps exactly one key of the input record, and that
    key is an action name. *)
Definition keeps_one_action (action emitted : action_record) : Prop :=
  exists name parameters,
    emitted = [(name, parameters)] /\
    name <> interacted_element /\
    In (name, parameters) action.

(** One emitted record per input record, as the claim on the serializer
    reads. *)
Definition one_action_per_record (stored emitted : list action_record) : Prop :=
  Forall2 keeps_one_action stored emitted.

(** A record holding only the auxiliary field. *)
Definition aux_only_record : action_record :=
  [(interacted_element, PyObj "DOMHistoryElement")].

(** ** Statements about the retry hook, in the words of the specification *)

(** [needle] occurs in [s] up to the case of letters. *)
Definition occurs_ci (needle s : string) : Prop :=
  exists pre mid post,
    s = (pre ++ mid ++ post)%string /\ lower mid = lower needle.

(** The page address contains one of the failure substrings. *)
Definition failure_address (url : string) : Prop :=
  exists err, In err error_indicators /\ occurs_ci err url.

Definition retry_notice : string := "Detected failure condition, will retry...".

(** ** Statements about the fetch flow *)

Definition the_llm (env : Env) : Llm :=
  mkLlm "gemini-2.0-flash" (env_api_key env).

Definition fresh_config (env : Env) (booking_id : string) : AgentConfig :=
  mkConfig (fresh_task booking_id) None None (the_llm env).

Definition replay_config (env : Env) (booking_id : string)
    (initial_actions : pyval) : AgentConfig :=
  mkConfig (replay_task booking_id) (Some (replay_context booking_id))
           (Some initial_actions) (the_llm env).

(** Building an agent and running it the way both branches do. *)
Definition session (env : Env) (cfg : AgentConfig) : M History :=
  let! agent := new_agent env cfg in
  agent_run env agent (anti_detection_hook env) (retry_hook env) 20.

(** What [fetch_hmm] prints when it catches [e]. *)
Definition logged (e : exn) (w : World) : World :=
  mkWorld (files w) (stdout w ++ [("Error during cleanup: " ++ exn_str e)%string])
          (slept w) (rng w) (agents w) (steps w) (runs w).

(** The text [save_actions] leaves in the trace file. *)
Definition dumped_text (env : Env) (stored : list action_record) : string :=
  fst (env_json_dump env (actions_value (reduce_actions stored))).

(** The two shapes the docstring of [fetch_hmm] promises. *)
Definition voyage_arrival (s : string) : Prop :=
  exists voyage arrival,
    s = ("Voyage: " ++ voyage ++ ", Arrival: " ++ arrival)%string.

Definition documented_result (r : option string) : Prop :=
  exists s, r = Some s /\ (voyage_arrival s \/ s = no_results).

(** [occurs needle s]: [needle] is a substring of [s]. *)
Definition occurs (needle s : string) : Prop :=
  exists pre post, s = (pre ++ needle ++ post)%string.

(** ** Sample worlds and environments *)

Definition empty_world : World := mkWorld ∅ [] [] 0 [] 0 [].

(** A world in which a trace was stored earlier. *)
Definition replay_world : World :=
  mkWorld {[ steps_file := "[]" ]} [] [] 0 [] 0 [].

Definition sample_actions : list action_record :=
  [ [("go_to_url", PyDict [("url", PyStr target_url)]);
     (interacted_element, PyNone)];
    [("click_element_by_index", PyDict [("index", PyInt 12)]);
     (interacted_element, PyObj "DOMHistoryElement")] ].

(** Everything succeeds and the agent is done after its first step, with
    the given final answer. *)
Definition scripted_env (answer : option string) : Env :=
  mkEnv "key"
        (fun _ => None)
        (fun _ => Ret (PyList []))
        (fun _ => ("[]", None))
        (fun _ => Ret "about:blank")
        (fun _ => Ret (target_url, mkHistory answer sample_actions true))
        (fun _ => None)
        (fun _ _ _ => None)
        (fun _ => 1 # 2)
        (fun _ a _ => a).

(** The first step of the agent raises. *)
Definition failing_env : Env :=
  mkEnv "key"
        (fun _ => None)
        (fun _ => Ret (PyList []))
        (fun _ => ("[]", None))
        (fun _ => Ret "about:blank")
        (fun _ => Raise (PyException "net::ERR_CONNECTION_RESET"))
        (fun _ => None)
        (fun _ _ _ => None)
        (fun _ => 1 # 2)
        (fun _ a _ => a).

(** The agent never declares itself done. *)
Definition stubborn_env : Env :=
  mkEnv "key"
        (fun _ => None)
        (fun _ => Ret (PyList []))
        (fun _ => ("[]", None))
        (fun _ => Ret "about:blank")
        (fun _ => Ret (target_url, no_history))
        (fun _ => None)
        (fun _ _ _ => None)
        (fun _ => 1 # 2)
        (fun _ a _ => a).

(** The claim on the sentinel as it reads: on a run that returns a
    string, that string is the sentinel exactly when the agent produced no
    final answer, and a final answer is returned as it is. *)
Definition sentinel_iff_no_answer (env : Env) (booking_id : string)
    (w : World) : Prop :=
  forall s w' hist,
    fetch_hmm env booking_id w = (Ret (Some s), w') ->
    runs w' = runs w ++ [hist] ->
    (s = no_results <-> final_result hist = None) /\
    (forall answer, final_result hist = Some answer -> s = answer).

(** The page of the agent can always be obtained and the pointer always
    moves, so that neither hook raises. *)
Definition hooks_succeed (env : Env) : Prop :=
  (forall agent, env_current_page env agent = None) /\
  (forall agent x y, env_mouse_move env agent x y = None).

(** An agent that never finishes and never fails: every step returns
    without finishing, and its page serves both hooks. *)
Definition never_done (env : Env) : Prop :=
  (forall agent, exists url h,
     env_step env agent = Ret (url, h) /\ is_done h = false) /\
  hooks_succeed env.

(** The client, the agent and the stored trace can all be set up. *)
Definition setup_succeeds (env : Env) : Prop :=
  env_chat_google env (the_llm env) = None /\
  (forall cfg, exists url, env_agent_init env cfg = Ret url) /\
  (forall text, exists v, env_json_load env text = Ret v).

(** ** What a computation leaves alone *)

(** [respects R c]: from every world, [c] ends in a world related to it by
    [R], whether it returns or raises. *)
Definition respects (R : World -> World -> Prop) {A} (c : M A) : Prop :=
  forall w, R w (snd (c w)).

(** The relation of two worlds that agree on the component [f]. *)
Definition unchanged {X} (f : World -> X) : World -> World -> Prop :=
  fun w w' => f w' = f w.

(** ** Further sample records and environments *)

(** A record in the shape [model_actions()] reports: one action and its
    parameters, followed by the auxiliary field. *)
Definition reported_record (t : string * pyval * pyval) : action_record :=
  let '(name, parameters, element) := t in
  [(name, parameters); (interacted_element, element)].

(** What is left of such a record in the trace. *)
Definition replayed_record (t : string * pyval * pyval) : action_record :=
  let '(name, parameters, element) := t in
  [(name, parameters)].

(** The agent answers at its first step, but the dump of the trace fails
    on an object [json] cannot serialise. *)
Definition unserialisable_env : Env :=
  mkEnv "key"
        (fun _ => None)
        (fun _ => Ret (PyList []))
        (fun _ => ("[", Some (PyException "Object is not JSON serializable")))
        (fun _ => Ret "about:blank")
        (fun _ => Ret (target_url,
                       mkHistory (Some "Voyage: 0012W, Arrival: 2025-07-01")
                                 sample_actions true))
        (fun _ => None)
        (fun _ _ _ => None)
        (fun _ => 1 # 2)
        (fun _ a _ => a).

(** The first step of the agent is interrupted from the keyboard. *)
Definition interrupted_env : Env :=
  mkEnv "key"
        (fun _ => None)
        (fun _ => Ret (PyList []))
        (fun _ => ("[]", None))
        (fun _ => Ret "about:blank")
        (fun _ => Raise (PyBaseException "KeyboardInterrupt"))
        (fun _ => None)
        (fun _ _ _ => None)
        (fun _ => 1 # 2)
        (fun _ a _ => a).

(** The stored trace does not parse. *)
Definition corrupt_env : Env :=
  mkEnv "key"
        (fun _ => None)
        (fun _ => Raise (PyException "Expecting value: line 1 column 1 (char 0)"))
        (fun _ => ("[]", None))
        (fun _ => Ret "about:blank")
        (fun _ => Ret (target_url, no_history))
        (fun _ => None)
        (fun _ _ _ => None)
        (fun _ => 1 # 2)
        (fun _ a _ => a).

(** The language-model client cannot be built. *)
Definition no_client_env : Env :=
  mkEnv ""
        (fun _ => Some (PyException "api_key must be set"))
        (fun _ => Ret (PyList []))
        (fun _ => ("[]", None))
        (fun _ => Ret "about:blank")
        (fun _ => Ret (target_url, no_history))
        (fun _ => None)
        (fun _ _ _ => None)
        (fun _ => 1 # 2)
        (fun _ a _ => a).

(** Every draw of [random.random()] is below the threshold of the pacing
    hook, and the agent stays on an error page without finishing. *)
Definition restless_env : Env :=
  mkEnv "key"
        (fun _ => None)
        (fun _ => Ret (PyList []))
        (fun _ => ("[]", None))
        (fun _ => Ret "about:blank")
        (fun _ => Ret ("http://www.hmm21.com/Error.jsp", no_history))
        (fun _ => None)
        (fun _ _ _ => None)
        (fun _ => 1 # 10)
        (fun _ a b => b).

Definition error_page_agent : Agent :=
  mkAgent (fresh_config restless_env "SINI25432400") []
          "http://www.hmm21.com/Error.jsp" [] no_history.

(** ** Statements about exceptions and about the odds of a pointer move *)

(** The claim on exceptions as it reads: whatever is raised during an
    invocation, no error reaches the caller. *)
Definition no_error_escapes (env : Env) (booking_id : string) (w : World) : Prop :=
  forall e w', fetch_hmm env booking_id w <> (Raise e, w').






(** * Results *)

(** ** The trace serializer *)

Lemma scan_items_acc (items : list (string * pyval)) (acc : list action_record) :
  scan_items items acc = acc ++ scan_items items [].
Proof.
  induction items as [|[name parameters] rest IH]; simpl.
  - by rewrite app_nil_r.
  - destruct (negb (String.eqb name interacted_element)); [done | apply IH].
Qed.

Lemma scan_actions_acc (stored : list action_record) (acc : list action_record) :
  scan_actions stored acc = acc ++ scan_actions stored [].
Proof.
  revert acc. induction stored as [|action rest IH]; intros acc; simpl.
  - by rewrite app_nil_r.
  - rewrite IH, (IH (scan_items action [])), (scan_items_acc action acc).
    by rewrite app_assoc.
Qed.

Lemma reduce_actions_cons (action : action_record) (rest : list action_record) :
  reduce_actions (action :: rest) = scan_items action [] ++ reduce_actions rest.
Proof. unfold reduce_actions. simpl. apply scan_actions_acc. Qed.

Lemma reduce_actions_app (l1 l2 : list action_record) :
  reduce_actions (l1 ++ l2) = reduce_actions l1 ++ reduce_actions l2.
Proof.
  induction l1 as [|action rest IH]; [done |].
  rewrite <- app_comm_cons, !reduce_actions_cons, IH. by rewrite app_assoc.
Qed.

Lemma scan_items_first (action : action_record) :
  scan_items action [] =
  match first_action_entry action with
  | Some kv => [[kv]]
  | None => []
  end.
Proof.
  unfold first_action_entry.
  induction action as [|[name parameters] rest IH]; simpl; [done |].
  unfold is_action_entry at 1. simpl.
  by destruct (negb (String.eqb name interacted_element)).
Qed.

Lemma reduce_actions_ordered (stored : list action_record) :
  reduce_actions stored = ordered_reduction stored.
Proof.
  induction stored as [|action rest IH]; [done |].
  rewrite reduce_actions_cons, scan_items_first, IH. done.
Qed.

Lemma first_action_entry_skip (vs : list pyval) (rest : action_record) :
  first_action_entry (map (pair interacted_element) vs ++ rest) =
  first_action_entry rest.
Proof. induction vs as [|v vs IH]; [done | exact IH]. Qed.

Lemma first_action_entry_In (action : action_record) (kv : string * pyval) :
  first_action_entry action = Some kv ->
  fst kv <> interacted_element /\ In kv action.
Proof.
  intros H. apply find_some in H as [Hin Hk]. split; [| done].
  unfold is_action_entry in Hk. apply negb_true_iff, String.eqb_neq in Hk. done.
Qed.

Lemma first_action_entry_has (action : action_record) :
  has_action action = bool_decide (is_Some (first_action_entry action)).
Proof.
  unfold has_action, first_action_entry.
  induction action as [|kv rest IH]; simpl; [done |].
  by destruct (is_action_entry kv).
Qed.

Lemma reduce_actions_length (stored : list action_record) :
  length (reduce_actions stored) <= length stored.
Proof.
  induction stored as [|action rest IH]; [done |].
  rewrite reduce_actions_cons, scan_items_first, length_app.
  destruct (first_action_entry action); simpl; lia.
Qed.

Lemma reduce_actions_keeps (stored : list action_record) :
  one_action_per_record (filter has_action stored) (reduce_actions stored).
Proof.
  unfold one_action_per_record.
  induction stored as [|action rest IH]; [constructor |].
  rewrite reduce_actions_cons, scan_items_first.
  pose proof (first_action_entry_has action) as Hh.
  destruct (first_action_entry action) as [[name parameters]|] eqn:E.
  - rewrite filter_cons_True by (by rewrite Hh).
    simpl. constructor; [| done].
    apply first_action_entry_In in E as [Hk Hin].
    by exists name, parameters.
  - rewrite filter_cons_False; [done |].
    rewrite Hh. intros H. apply bool_decide_unpack in H as [? ?]. done.
Qed.

(** ** Frame rules for the monad *)

Section Frame.

Variable R : World -> World -> Prop.
Hypothesis R_refl : forall w, R w w.
Hypothesis R_trans : forall w1 w2 w3, R w1 w2 -> R w2 w3 -> R w1 w3.

Lemma respects_ret {A} (a : A) : respects R (ret a).
Proof. intros w. apply R_refl. Qed.

Lemma respects_raise {A} (e : exn) : respects R (@raise A e).
Proof. intros w. apply R_refl. Qed.

Lemma respects_bind {A B} (c : M A) (k : A -> M B) :
  respects R c -> (forall a, respects R (k a)) -> respects R (bind c k).
Proof.
  intros Hc Hk w. unfold bind. specialize (Hc w).
  destruct (c w) as [[a|e] w1]; simpl in *; [| done].
  eapply R_trans; [exact Hc | apply Hk].
Qed.

Lemma respects_try_except {A} (body : M A) (handler : exn -> M A) :
  respects R body -> (forall e, respects R (handler e)) ->
  respects R (try_except body handler).
Proof.
  intros Hb Hh w. unfold try_except. specialize (Hb w).
  destruct (body w) as [[a|e] w1]; simpl in *; [done |].
  destruct (is_Exception e); [| done].
  eapply R_trans; [exact Hb | apply Hh].
Qed.

End Frame.

Lemma unchanged_refl {X} (f : World -> X) (w : World) : unchanged f w w.
Proof. done. Qed.

Lemma unchanged_trans {X} (f : World -> X) (w1 w2 w3 : World) :
  unchanged f w1 w2 -> unchanged f w2 w3 -> unchanged f w1 w3.
Proof. unfold unchanged. congruence. Qed.

(** A computation built from [ret], [raise], [bind], [try_except] and
    primitives that leave [f] alone leaves [f] alone. *)
Ltac frame_step :=
  first
    [ apply respects_ret; solve [auto using unchanged_refl]
    | apply respects_raise; solve [auto using unchanged_refl]
    | apply respects_bind;
        [ apply unchanged_trans | | intros ? ]
    | apply respects_try_except;
        [ apply unchanged_trans | | intros ? ]
    | solve [ intros ?; reflexivity ]
    | match goal with
      | |- respects _ (match ?x with _ => _ end) => destruct x
      | |- respects _ (let (_, _) := ?x in _) => destruct x
      end ].

Ltac frame := repeat frame_step.

Lemma read_text_frame {X} (f : World -> X) (path : string) :
  respects (unchanged f) (read_text path).
Proof. intros w. unfold read_text. by destruct (files w !! path). Qed.

Ltac script_frame :=
  unfold fetch_body, replay_branch, fresh_branch, save_actions, json_dump,
    json_load, new_agent, agent_step, chat_google, anti_detection_hook,
    retry_hook, get_current_page, page_mouse_move, random_uniform,
    random_randint, random_random;
  repeat first [ apply read_text_frame | frame_step ].

Section ScriptFrames.

Variable env : Env.

(** The pacing hook only sleeps and draws random numbers. *)
Lemma anti_detection_hook_files (agent : Agent) :
  respects (unchanged files) (anti_detection_hook env agent).
Proof. script_frame. Qed.

Lemma anti_detection_hook_agents (agent : Agent) :
  respects (unchanged agents) (anti_detection_hook env agent).
Proof. script_frame. Qed.

Lemma anti_detection_hook_steps (agent : Agent) :
  respects (unchanged steps) (anti_detection_hook env agent).
Proof. script_frame. Qed.

Lemma anti_detection_hook_runs (agent : Agent) :
  respects (unchanged runs) (anti_detection_hook env agent).
Proof. script_frame. Qed.

(** The retry hook only prints. *)
Lemma retry_hook_files (agent : Agent) :
  respects (unchanged files) (retry_hook env agent).
Proof. script_frame. Qed.

Lemma retry_hook_agents (agent : Agent) :
  respects (unchanged agents) (retry_hook env agent).
Proof. script_frame. Qed.

Lemma retry_hook_steps (agent : Agent) :
  respects (unchanged steps) (retry_hook env agent).
Proof. script_frame. Qed.

Lemma retry_hook_runs (agent : Agent) :
  respects (unchanged runs) (retry_hook env agent).
Proof. script_frame. Qed.

(** A step of the agent only advances the step count. *)
Lemma agent_step_files (agent : Agent) :
  respects (unchanged files) (agent_step env agent).
Proof. script_frame. Qed.

Lemma agent_step_agents (agent : Agent) :
  respects (unchanged agents) (agent_step env agent).
Proof. script_frame. Qed.

Lemma agent_step_runs (agent : Agent) :
  respects (unchanged runs) (agent_step env agent).
Proof. script_frame. Qed.

(** The run loop leaves alone whatever its hooks and a step leave alone. *)
Lemma run_steps_frame {X} (f : World -> X)
    (on_step_start on_step_end : Agent -> M Agent) :
  (forall a, respects (unchanged f) (agent_step env a)) ->
  (forall a, respects (unchanged f) (on_step_start a)) ->
  (forall a, respects (unchanged f) (on_step_end a)) ->
  forall max_steps agent,
    respects (unchanged f)
      (run_steps env on_step_start on_step_end max_steps agent).
Proof.
  intros Hstep Hstart Hend max_steps.
  induction max_steps as [|n IH]; intros agent; simpl.
  - frame.
  - apply respects_bind; [apply unchanged_trans | apply Hstart | intros a1].
    apply respects_bind; [apply unchanged_trans | apply Hstep | intros a2].
    apply respects_bind; [apply unchanged_trans | apply Hend | intros a3].
    destruct (is_done (history a3)); [frame | apply IH].
Qed.

Lemma agent_run_files (agent : Agent) (max_steps : nat) :
  respects (unchanged files)
    (agent_run env agent (anti_detection_hook env) (retry_hook env) max_steps).
Proof.
  unfold agent_run.
  apply respects_bind; [apply unchanged_trans | | intros a; frame].
  apply run_steps_frame;
    auto using agent_step_files, anti_detection_hook_files, retry_hook_files.
Qed.

Lemma agent_run_agents (agent : Agent) (max_steps : nat) :
  respects (unchanged agents)
    (agent_run env agent (anti_detection_hook env) (retry_hook env) max_steps).
Proof.
  unfold agent_run.
  apply respects_bind; [apply unchanged_trans | | intros a; frame].
  apply run_steps_frame;
    auto using agent_step_agents, anti_detection_hook_agents, retry_hook_agents.
Qed.

Lemma run_steps_runs (agent : Agent) (max_steps : nat) :
  respects (unchanged runs)
    (run_steps env (anti_detection_hook env) (retry_hook env) max_steps agent).
Proof.
  apply run_steps_frame;
    auto using agent_step_runs, anti_detection_hook_runs, retry_hook_runs.
Qed.

Lemma new_agent_files (cfg : AgentConfig) :
  respects (unchanged files) (new_agent env cfg).
Proof. script_frame. Qed.

Lemma new_agent_steps (cfg : AgentConfig) :
  respects (unchanged steps) (new_agent env cfg).
Proof. script_frame. Qed.

Lemma new_agent_runs (cfg : AgentConfig) :
  respects (unchanged runs) (new_agent env cfg).
Proof. script_frame. Qed.

Lemma json_load_frame {X} (f : World -> X) (path : string) :
  respects (unchanged f) (json_load env path).
Proof. script_frame. Qed.

Lemma save_actions_agents (stored : list action_record) :
  respects (unchanged agents) (save_actions env stored).
Proof. script_frame. Qed.

Lemma save_actions_steps (stored : list action_record) :
  respects (unchanged steps) (save_actions env stored).
Proof. script_frame. Qed.

Lemma save_actions_runs (stored : list action_record) :
  respects (unchanged runs) (save_actions env stored).
Proof. script_frame. Qed.

End ScriptFrames.

(** ** The shape of [fetch_hmm] *)

Section FetchShape.

Variable env : Env.

Lemma session_files (cfg : AgentConfig) :
  respects (unchanged files) (session env cfg).
Proof.
  unfold session.
  apply respects_bind;
    [apply unchanged_trans | apply new_agent_files | intros a; apply agent_run_files].
Qed.

Lemma session_agents (cfg : AgentConfig) (w : World) :
  agents (snd (session env cfg w)) = agents w ++ [cfg].
Proof.
  unfold session, new_agent, bind, log_agent. simpl.
  destruct (env_agent_init env cfg) as [url|e]; simpl; [| done].
  apply (agent_run_agents env).
Qed.

Lemma session_runs (cfg : AgentConfig) (w : World) :
  match session env cfg w with
  | (Ret hist, w1) => runs w1 = runs w ++ [hist]
  | (Raise _, w1) => runs w1 = runs w
  end.
Proof.
  unfold session, new_agent, bind, log_agent. simpl.
  destruct (env_agent_init env cfg) as [url|e]; simpl; [| done].
  unfold agent_run, bind.
  set (a0 := mkAgent cfg [] url [] no_history).
  set (w0 := mkWorld _ _ _ _ _ _ _).
  pose proof (run_steps_runs env a0 20 w0) as Hr.
  destruct (run_steps env (anti_detection_hook env) (retry_hook env) 20 a0 w0)
    as [[a|e] w1]; simpl in *.
  - unfold unchanged in Hr. by rewrite Hr.
  - exact Hr.
Qed.

Lemma save_actions_files (stored : list action_record) (w : World) :
  files (snd (save_actions env stored w)) =
  <[steps_file := dumped_text env stored]> (files w).
Proof.
  unfold save_actions, json_dump, dumped_text, bind, write_text. simpl.
  destruct (env_json_dump env (actions_value (reduce_actions stored)))
    as [text [e|]]; simpl; apply insert_insert_eq.
Qed.

Lemma fetch_body_replay (booking_id text : string) (w : World) :
  files w !! steps_file = Some text ->
  fetch_body env booking_id (the_llm env) w =
  match env_json_load env text with
  | Raise e => (Raise e, w)
  | Ret v =>
      match session env (replay_config env booking_id v) w with
      | (Raise e, w1) => (Raise e, w1)
      | (Ret hist, w1) =>
          (Ret (if truthy (final_result hist) then final_result hist
                else Some no_results), w1)
      end
  end.
Proof.
  intros Hfile.
  unfold fetch_body, bind at 1, path_exists. simpl.
  rewrite bool_decide_eq_true_2 by (rewrite Hfile; by eexists).
  unfold replay_branch, json_load, bind at 1, bind at 1, read_text.
  rewrite Hfile.
  destruct (env_json_load env text) as [v|e]; simpl; [| done].
  unfold session, replay_config, bind.
  destruct (new_agent env _ w) as [[a|e] w1]; [| done].
  destruct (agent_run env a _ _ 20 w1) as [[hist|e] w2]; [| done].
  by destruct (truthy (final_result hist)).
Qed.

Lemma fetch_body_fresh (booking_id : string) (w : World) :
  files w !! steps_file = None ->
  fetch_body env booking_id (the_llm env) w =
  match session env (fresh_config env booking_id) w with
  | (Raise e, w1) => (Raise e, w1)
  | (Ret hist, w1) =>
      if truthy (final_result hist) then
        match save_actions env (model_actions hist) w1 with
        | (Ret _, w2) => (Ret (final_result hist), w2)
        | (Raise e, w2) => (Raise e, w2)
        end
      else (Ret (Some no_results), w1)
  end.
Proof.
  intros Hfile.
  unfold fetch_body, bind at 1, path_exists. simpl.
  rewrite bool_decide_eq_false_2 by (rewrite Hfile; by intros [? ?]).
  unfold fresh_branch, session, fresh_config, bind.
  destruct (new_agent env _ w) as [[a|e] w1]; [| done].
  destruct (agent_run env a _ _ 20 w1) as [[hist|e] w2]; [| done].
  destruct (truthy (final_result hist)); [| done].
  by destruct (save_actions env (model_actions hist) w2) as [[[]|e] w3].
Qed.

Lemma fetch_hmm_try (booking_id : string) (w : World) :
  env_chat_google env (the_llm env) = None ->
  fetch_hmm env booking_id w =
  match fetch_body env booking_id (the_llm env) w with
  | (Ret r, w1) => (Ret r, w1)
  | (Raise e, w1) =>
      if is_Exception e then (Ret None, logged e w1) else (Raise e, w1)
  end.
Proof.
  intros Hllm.
  unfold fetch_hmm, chat_google, bind at 1. fold (the_llm env).
  rewrite Hllm. simpl. unfold try_except.
  destruct (fetch_body env booking_id (the_llm env) w) as [[r|e] w1]; [done |].
  by destruct (is_Exception e).
Qed.

Lemma fetch_hmm_no_llm (booking_id : string) (w : World) (e : exn) :
  env_chat_google env (the_llm env) = Some e ->
  fetch_hmm env booking_id w = (Raise e, w).
Proof.
  intros Hllm.
  unfold fetch_hmm, chat_google, bind at 1. fold (the_llm env).
  by rewrite Hllm.
Qed.

End FetchShape.

(** ** Exceptions at the boundary of [fetch_hmm] *)

Lemma fetch_hmm_caught (env : Env) (booking_id : string) (w w1 : World) (e : exn) :
  env_chat_google env (the_llm env) = None ->
  fetch_body env booking_id (the_llm env) w = (Raise e, w1) ->
  is_Exception e = true ->
  fetch_hmm env booking_id w = (Ret None, logged e w1).
Proof.
  intros Hllm Hbody He. rewrite fetch_hmm_try by done.
  by rewrite Hbody, He.
Qed.

(** Inside the [try] block a value is always a string: [None] comes out of
    [fetch_hmm] only through the [except] clause. *)
Lemma fetch_body_returns_a_string (env : Env) (booking_id : string) (w w1 : World)
    (r : option string) :
  fetch_body env booking_id (the_llm env) w = (Ret r, w1) -> is_Some r.
Proof.
  destruct (files w !! steps_file) as [text|] eqn:Hfile.
  - rewrite (fetch_body_replay env booking_id text) by done.
    destruct (env_json_load env text) as [v|e]; [| done].
    destruct (session env _ w) as [[hist|e] w2]; [| done].
    intros [= <- <-].
    destruct (final_result hist) as [ans|]; simpl; [| by eexists].
    destruct (negb (String.eqb ans "")); by eexists.
  - rewrite fetch_body_fresh by done.
    destruct (session env _ w) as [[hist|e] w2]; [| done].
    destruct (final_result hist) as [ans|] eqn:Hans; simpl.
    + destruct (negb (String.eqb ans "")).
      * destruct (save_actions env _ w2) as [[[]|e] w3]; [| done].
        intros [= <- <-]. by eexists.
      * intros [= <- <-]. by eexists.
    + intros [= <- <-]. by eexists.
Qed.

(** The collaborators whose exceptions reach the boundary: a trace file
    that does not parse, and an agent that cannot be constructed. *)
Lemma json_load_failure_reaches_boundary (env : Env) (booking_id text : string)
    (w : World) (e : exn) :
  files w !! steps_file = Some text ->
  env_json_load env text = Raise e ->
  fetch_body env booking_id (the_llm env) w = (Raise e, w).
Proof.
  intros Hfile Hload.
  rewrite (fetch_body_replay env booking_id text) by done. by rewrite Hload.
Qed.

Lemma agent_failure_reaches_boundary (env : Env) (booking_id : string)
    (w : World) (e : exn) :
  files w !! steps_file = None ->
  env_agent_init env (fresh_config env booking_id) = Raise e ->
  fst (fetch_body env booking_id (the_llm env) w) = Raise e.
Proof.
  intros Hfile Hinit. rewrite fetch_body_fresh by done.
  unfold session, new_agent, bind, log_agent. by rewrite Hinit.
Qed.

(** C3, as amended. Once the client is built, every instance of
    [Exception] that comes out of the fetch/run sequence, that is, out of
    the body of the [try] block, is caught by [fetch_hmm]: the call returns
    normally, with no value ([None]), and its only trace is the line
    printed to standard output. *)
Theorem fetch_hmm_swallows_exceptions (env : Env) (booking_id : string)
    (w w1 : World) (e : exn) :
  env_chat_google env (the_llm env) = None ->
  fetch_body env booking_id (the_llm env) w = (Raise e, w1) ->
  is_Exception e = true ->
  fetch_hmm env booking_id w = (Ret None, logged e w1) /\
  stdout (logged e w1) =
    stdout w1 ++ [("Error during cleanup: " ++ exn_str e)%string].
Proof.
  intros Hllm Hbody He. split; [| done].
  by apply (fetch_hmm_caught env booking_id w w1 e).
Qed.

Lemma fetch_hmm_swallows_exceptions_witness :
  let env := failing_env in
  let e := PyException "net::ERR_CONNECTION_RESET" in
  let w1 := snd (fetch_body env "SINI25432400" (the_llm env) empty_world) in
  env_chat_google env (the_llm env) = None /\
  fetch_body env "SINI25432400" (the_llm env) empty_world = (Raise e, w1) /\
  is_Exception e = true /\
  fetch_hmm env "SINI25432400" empty_world = (Ret None, logged e w1) /\
  stdout (logged e w1) =
    stdout w1 ++ [("Error during cleanup: " ++ exn_str e)%string].
Proof.
  split; [reflexivity |]. split; [reflexivity |]. split; [reflexivity |].
  apply (fetch_hmm_swallows_exceptions failing_env "SINI25432400" empty_world);
    reflexivity.
Defined.

(** C2. With no trace file and an agent whose first step raises,
    [fetch_hmm] returns [None], which is neither of the two shapes its
    docstring promises; [main] then prints ["Results: None"]. *)
Theorem fetch_hmm_returns_None_on_failure :
  files empty_world !! steps_file = None /\
  fst (fetch_hmm failing_env "SINI25432400" empty_world) = Ret None /\
  ~ documented_result None /\
  stdout (snd (main failing_env empty_world)) =
    ["Error during cleanup: net::ERR_CONNECTION_RESET"; "Results: None"].
Proof.
  split; [done |]. split; [reflexivity |]. split; [| reflexivity].
  intros [s [Hs _]]. discriminate.
Qed.

(** ** Which agent is built *)

Lemma str_app_assoc (s1 s2 s3 : string) :
  ((s1 ++ s2) ++ s3 = s1 ++ s2 ++ s3)%string.
Proof.
  induction s1 as [|c s1 IH]; [done |].
  change (String c ((s1 ++ s2) ++ s3) = String c (s1 ++ s2 ++ s3))%string.
  by rewrite IH.
Qed.

Lemma append_occurs (pre needle post : string) :
  occurs needle (pre ++ needle ++ post)%string.
Proof. by exists pre, post. Qed.

Lemma fresh_task_mentions_id (booking_id : string) :
  occurs booking_id (fresh_task booking_id).
Proof.
  unfold fresh_task, id_sentence.
  exists (nl ++ pad12 ++ "Your task:" ++ nl ++ pad12 ++
          "Given an HMM booking ID " ++ dq)%string.
  eexists. rewrite !str_app_assoc. reflexivity.
Qed.

Lemma fresh_task_mentions_url (booking_id : string) :
  occurs target_url (fresh_task booking_id).
Proof.
  unfold fresh_task.
  exists (nl ++ pad12 ++ "Your task:" ++ nl ++ pad12 ++
          id_sentence booking_id ++ nl ++ pad12 ++
          "First, navigate to exactly website: ")%string.
  eexists. rewrite !str_app_assoc. reflexivity.
Qed.

Lemma fetch_hmm_agents_fresh (env : Env) (booking_id : string) (w : World) :
  env_chat_google env (the_llm env) = None ->
  files w !! steps_file = None ->
  agents (snd (fetch_hmm env booking_id w)) =
  agents w ++ [fresh_config env booking_id].
Proof.
  intros Hllm Hfile. rewrite fetch_hmm_try, fetch_body_fresh by done.
  pose proof (session_agents env (fresh_config env booking_id) w) as Ha.
  destruct (session env _ w) as [[hist|e] w1]; simpl in Ha.
  - destruct (truthy (final_result hist)); [| done].
    pose proof (save_actions_agents env (model_actions hist) w1) as Hs.
    unfold unchanged in Hs.
    destruct (save_actions env _ w1) as [[[]|e] w2]; simpl in *.
    + congruence.
    + destruct (is_Exception e); simpl; congruence.
  - by destruct (is_Exception e).
Qed.

Lemma fetch_hmm_agents_replay (env : Env) (booking_id text : string)
    (v : pyval) (w : World) :
  env_chat_google env (the_llm env) = None ->
  files w !! steps_file = Some text ->
  env_json_load env text = Ret v ->
  agents (snd (fetch_hmm env booking_id w)) =
  agents w ++ [replay_config env booking_id v].
Proof.
  intros Hllm Hfile Hload.
  rewrite fetch_hmm_try, (fetch_body_replay env booking_id text), Hload by done.
  pose proof (session_agents env (replay_config env booking_id v) w) as Ha.
  destruct (session env _ w) as [[hist|e] w1]; simpl in Ha; [done |].
  by destruct (is_Exception e).
Qed.

(** A trace file that does not parse builds no agent at all. *)
Lemma unparsable_trace_builds_no_agent (env : Env) (booking_id text : string)
    (e : exn) (w : World) :
  env_chat_google env (the_llm env) = None ->
  files w !! steps_file = Some text ->
  env_json_load env text = Raise e ->
  agents (snd (fetch_hmm env booking_id w)) = agents w.
Proof.
  intros Hllm Hfile Hload.
  rewrite fetch_hmm_try, (fetch_body_replay env booking_id text), Hload by done.
  by destruct (is_Exception e).
Qed.

(** C4. When the language-model client is built: if the trace file does
    not exist, the one agent constructed gets the fresh-discovery task,
    which contains the booking identifier and the target address
    literally, and no initial actions; if the trace file exists and
    parses, the one agent constructed is the replay agent, whose initial
    actions are exactly the parsed contents of the file. *)
Theorem fetch_hmm_chooses_task (env : Env) (booking_id : string) (w : World) :
  env_chat_google env (the_llm env) = None ->
  (files w !! steps_file = None ->
     agents (snd (fetch_hmm env booking_id w)) =
       agents w ++ [mkConfig (fresh_task booking_id) None None (the_llm env)] /\
     occurs booking_id (fresh_task booking_id) /\
     occurs target_url (fresh_task booking_id) /\
     target_url = "http://www.seacargotracking.net/") /\
  (forall text v,
     files w !! steps_file = Some text ->
     env_json_load env text = Ret v ->
     agents (snd (fetch_hmm env booking_id w)) =
       agents w ++ [mkConfig (replay_task booking_id)
                             (Some (replay_context booking_id))
                             (Some v) (the_llm env)]).
Proof.
  intros Hllm. split.
  - intros Hfile. split; [| split; [| split]].
    + by apply fetch_hmm_agents_fresh.
    + apply fresh_task_mentions_id.
    + apply fresh_task_mentions_url.
    + reflexivity.
  - intros text v Hfile Hload.
    by apply (fetch_hmm_agents_replay env booking_id text).
Qed.

Lemma fetch_hmm_chooses_task_witness :
  env_chat_google (scripted_env None) (the_llm (scripted_env None)) = None /\
  files empty_world !! steps_file = None /\
  files replay_world !! steps_file = Some "[]" /\
  agents (snd (fetch_hmm (scripted_env None) "SINI25432400" empty_world)) =
    [mkConfig (fresh_task "SINI25432400") None None (the_llm (scripted_env None))] /\
  agents (snd (fetch_hmm (scripted_env None) "SINI25432400" replay_world)) =
    [mkConfig (replay_task "SINI25432400")
              (Some (replay_context "SINI25432400"))
              (Some (PyList [])) (the_llm (scripted_env None))].
Proof.
  split; [reflexivity |]. split; [reflexivity |]. split; [reflexivity |].
  split.
  - apply (fetch_hmm_chooses_task (scripted_env None) "SINI25432400" empty_world);
      reflexivity.
  - apply (fetch_hmm_chooses_task (scripted_env None) "SINI25432400" replay_world
             eq_refl) with (text := "[]"); reflexivity.
Defined.

(** ** When the trace file is written *)

(** The outcome of an invocation, as far as the trace file and the record
    of completed runs are concerned: nothing is written, or the file did
    not exist, exactly one run completed, it reported a final answer, and
    the file now holds the dump of the reduced actions of that run. *)
Lemma fetch_hmm_write_cases (env : Env) (booking_id : string) (w : World) :
  let w' := snd (fetch_hmm env booking_id w) in
  (files w' = files w /\
   (files w !! steps_file = None ->
    runs w' = runs w \/
    exists hist, runs w' = runs w ++ [hist] /\ truthy (final_result hist) = false))
  \/
  (files w !! steps_file = None /\
   exists hist,
     runs w' = runs w ++ [hist] /\
     truthy (final_result hist) = true /\
     files w' = <[steps_file := dumped_text env (model_actions hist)]> (files w)).
Proof.
  intros w'. subst w'.
  destruct (env_chat_google env (the_llm env)) as [e0|] eqn:Hllm.
  { rewrite (fetch_hmm_no_llm env booking_id w e0) by done. left. auto. }
  rewrite fetch_hmm_try by done.
  destruct (files w !! steps_file) as [text|] eqn:Hfile.
  - left. split; [| done].
    rewrite (fetch_body_replay env booking_id text) by done.
    destruct (env_json_load env text) as [v|e]; [| by destruct (is_Exception e)].
    pose proof (session_files env (replay_config env booking_id v) w) as Hf.
    destruct (session env _ w) as [[hist|e] w1]; [exact Hf |].
    destruct (is_Exception e); exact Hf.
  - rewrite fetch_body_fresh by done.
    pose proof (session_files env (fresh_config env booking_id) w) as Hf.
    pose proof (session_runs env (fresh_config env booking_id) w) as Hr.
    destruct (session env _ w) as [[hist|e] w1]; unfold unchanged in Hf;
      simpl in Hf.
    + destruct (truthy (final_result hist)) eqn:Hans.
      * right. split; [done |]. exists hist.
        pose proof (save_actions_files env (model_actions hist) w1) as Hs.
        pose proof (save_actions_runs env (model_actions hist) w1) as Hsr.
        unfold unchanged in Hsr. rewrite Hf in Hs.
        destruct (save_actions env _ w1) as [[[]|e] w2]; simpl in *.
        -- split; [congruence | done].
        -- destruct (is_Exception e); simpl; (split; [congruence | done]).
      * left. split; [done |]. intros _. right. by exists hist.
    + left. destruct (is_Exception e); simpl; (split; [done | by left]).
Qed.

(** C5. The trace file is written only on the fresh path and only when
    the agent reports a final answer: a run that starts with a trace file
    leaves every file as it was; a change of the files implies that no
    trace file existed and that the run completed with a final answer; and
    a fresh run whose agent run raised, or completed without a final
    answer, leaves every file as it was. *)
Theorem trace_written_only_after_fresh_answer (env : Env) (booking_id : string)
    (w : World) :
  let w' := snd (fetch_hmm env booking_id w) in
  (forall text, files w !! steps_file = Some text -> files w' = files w) /\
  (files w' <> files w ->
     files w !! steps_file = None /\
     exists hist,
       runs w' = runs w ++ [hist] /\ truthy (final_result hist) = true) /\
  (files w !! steps_file = None ->
     (runs w' = runs w \/
      exists hist,
        runs w' = runs w ++ [hist] /\ truthy (final_result hist) = false) ->
     files w' = files w).
Proof.
  intros w'. subst w'.
  destruct (fetch_hmm_write_cases env booking_id w)
    as [[Hsame _] | [Hnone [hist [Hruns [Hans Hfiles]]]]].
  - split; [done |]. split; [done | done].
  - split; [| split].
    + intros text Htext. congruence.
    + intros _. split; [done |]. by exists hist.
    + intros _ [Hr | [hist' [Hr Hans']]].
      * rewrite Hruns in Hr. apply (f_equal length) in Hr.
        rewrite length_app in Hr. simpl in Hr. lia.
      * rewrite Hruns in Hr. apply app_inj_tail in Hr as [_ ->]. congruence.
Qed.

(** A successful fresh run does write the trace. *)
Example fresh_answer_is_saved :
  files (snd (fetch_hmm (scripted_env (Some "Voyage: 0012W, Arrival: 2025-07-01"))
                        "SINI25432400" empty_world)) !! steps_file = Some "[]".
Proof. reflexivity. Qed.

Example replay_leaves_trace :
  files (snd (fetch_hmm (scripted_env (Some "Voyage: 0012W, Arrival: 2025-07-01"))
                        "SINI25432400" replay_world)) = files replay_world.
Proof. reflexivity. Qed.

(** ** What [fetch_hmm] returns *)

Lemma fetch_hmm_answer (env : Env) (booking_id s : string) (w w' : World) :
  fetch_hmm env booking_id w = (Ret (Some s), w') ->
  exists hist,
    runs w' = runs w ++ [hist] /\
    Some s = if truthy (final_result hist) then final_result hist
             else Some no_results.
Proof.
  destruct (env_chat_google env (the_llm env)) as [e0|] eqn:Hllm.
  { by rewrite (fetch_hmm_no_llm env booking_id w e0). }
  rewrite fetch_hmm_try by done.
  destruct (files w !! steps_file) as [text|] eqn:Hfile.
  - rewrite (fetch_body_replay env booking_id text) by done.
    destruct (env_json_load env text) as [v|e]; [| by destruct (is_Exception e)].
    pose proof (session_runs env (replay_config env booking_id v) w) as Hr.
    destruct (session env _ w) as [[hist|e] w1];
      [| by destruct (is_Exception e)].
    intros [= Hs <-]. by exists hist.
  - rewrite fetch_body_fresh by done.
    pose proof (session_runs env (fresh_config env booking_id) w) as Hr.
    destruct (session env _ w) as [[hist|e] w1];
      [| by destruct (is_Exception e)].
    destruct (truthy (final_result hist)) eqn:Hans.
    + pose proof (save_actions_runs env (model_actions hist) w1) as Hsr.
      unfold unchanged in Hsr.
      destruct (save_actions env _ w1) as [[[]|e] w2]; simpl in *;
        [| by destruct (is_Exception e)].
      intros [= Hs <-]. exists hist. rewrite Hans. split; congruence.
    + intros [= <- <-]. exists hist. by rewrite Hans.
Qed.

(** C6, as amended. On a run that returns a string: a completed agent run
    stands behind it; if that run produced no final answer (none, or an
    empty one) the string is the sentinel; a non-empty final answer is
    returned as it is; so the sentinel comes back exactly when the final
    answer is missing, empty, or itself the text of the sentinel. *)
Theorem fetch_hmm_sentinel (env : Env) (booking_id s : string) (w w' : World) :
  fetch_hmm env booking_id w = (Ret (Some s), w') ->
  exists hist,
    runs w' = runs w ++ [hist] /\
    (truthy (final_result hist) = false -> s = no_results) /\
    (forall answer,
       final_result hist = Some answer -> answer <> "" -> s = answer) /\
    (s = no_results <->
       final_result hist = None \/
       final_result hist = Some "" \/
       final_result hist = Some no_results).
Proof.
  intros Hrun. apply fetch_hmm_answer in Hrun as [hist [Hruns Hs]].
  exists hist. split; [done |].
  destruct (final_result hist) as [answer|]; simpl in Hs.
  - destruct (String.eqb answer "") eqn:E; simpl in Hs.
    + apply String.eqb_eq in E as ->.
      injection Hs as ->. split; [done |].
      split; [by intros ? [= <-] Hne |]. split; auto.
    + injection Hs as ->. split; [simpl; by rewrite E |].
      apply String.eqb_neq in E. split.
      * by intros ? [= ->] _.
      * split; [intros ->; auto |].
        intros [H | [H | H]]; [done | congruence | congruence].
  - injection Hs as ->. split; [done |]. split; [done |]. split; auto.
Qed.

Lemma fetch_hmm_sentinel_witness :
  let env := scripted_env None in
  let w' := snd (fetch_hmm env "SINI25432400" replay_world) in
  fetch_hmm env "SINI25432400" replay_world = (Ret (Some no_results), w') /\
  exists hist,
    runs w' = runs replay_world ++ [hist] /\
    (truthy (final_result hist) = false -> no_results = no_results) /\
    (forall answer,
       final_result hist = Some answer -> answer <> "" -> no_results = answer) /\
    (no_results = no_results <->
       final_result hist = None \/
       final_result hist = Some "" \/
       final_result hist = Some no_results).
Proof.
  split; [reflexivity |].
  apply (fetch_hmm_sentinel (scripted_env None) "SINI25432400" no_results
           replay_world).
  reflexivity.
Defined.

(** C6, as stated, fails when the final answer of the agent is the text of
    the sentinel: the sentinel comes back although a final answer exists. *)
Lemma sentinel_without_missing_answer :
  ~ sentinel_iff_no_answer (scripted_env (Some no_results)) "SINI25432400"
      empty_world.
Proof.
  intros H.
  destruct (H no_results
              (snd (fetch_hmm (scripted_env (Some no_results)) "SINI25432400"
                              empty_world))
              (mkHistory (Some no_results) sample_actions true)
              eq_refl eq_refl) as [[Hno _] _].
  discriminate (Hno eq_refl).
Qed.

(** ** The step budget *)

Section Budget.

Variable env : Env.

Lemma agent_step_steps (agent : Agent) (w : World) :
  steps (snd (agent_step env agent w)) = S (steps w).
Proof.
  unfold agent_step, bind, count_step. simpl.
  by destruct (env_step env agent) as [[url h]|e].
Qed.

Lemma anti_detection_hook_returns (agent : Agent) (w : World) :
  hooks_succeed env ->
  exists agent', fst (anti_detection_hook env agent w) = Ret agent'.
Proof.
  intros [Hpage Hmove].
  unfold anti_detection_hook, get_current_page, page_mouse_move,
    random_uniform, random_random, random_randint,
    bind, next_draw, sleep, ret.
  rewrite Hpage. simpl.
  destruct (Qlt_bool _ _); [rewrite Hmove |]; by eexists.
Qed.

Lemma retry_hook_returns (agent : Agent) (w : World) :
  hooks_succeed env ->
  exists agent', fst (retry_hook env agent w) = Ret agent'.
Proof.
  intros [Hpage _].
  unfold retry_hook, get_current_page, bind, print, ret. rewrite Hpage.
  destruct (existsb _ _); by eexists.
Qed.

Lemma retry_hook_history (agent : Agent) (w : World) (agent' : Agent) :
  fst (retry_hook env agent w) = Ret agent' -> history agent' = history agent.
Proof.
  unfold retry_hook, get_current_page, bind, print, ret.
  destruct (env_current_page env agent); [done |].
  destruct (existsb _ _); by intros [= <-].
Qed.

(** A run executes at most [max_steps] steps. *)
Lemma run_steps_bound (max_steps : nat) (agent : Agent) (w : World) :
  steps w <=
    steps (snd (run_steps env (anti_detection_hook env) (retry_hook env)
                          max_steps agent w)) <=
  steps w + max_steps.
Proof.
  revert agent w. induction max_steps as [|n IH]; intros agent w; simpl.
  - unfold ret. simpl. lia.
  - unfold bind.
    pose proof (anti_detection_hook_steps env agent w) as H1.
    destruct (anti_detection_hook env agent w) as [[a1|e] w1];
      unfold unchanged in H1; simpl in H1; [| simpl; lia].
    pose proof (agent_step_steps a1 w1) as H2.
    destruct (agent_step env a1 w1) as [[a2|e] w2]; simpl in H2; [| simpl; lia].
    pose proof (retry_hook_steps env a2 w2) as H3.
    destruct (retry_hook env a2 w2) as [[a3|e] w3];
      unfold unchanged in H3; simpl in H3; [| simpl; lia].
    destruct (is_done (history a3)).
    + unfold ret. simpl. lia.
    + specialize (IH a3 w3). lia.
Qed.

Lemma agent_step_continues (agent : Agent) (w : World) :
  (forall agent, exists url h,
     env_step env agent = Ret (url, h) /\ is_done h = false) ->
  exists agent2 w2,
    agent_step env agent w = (Ret agent2, w2) /\
    steps w2 = S (steps w) /\
    is_done (history agent2) = false.
Proof.
  intros Hstep. destruct (Hstep agent) as (url & h & Hs & Hdone).
  unfold agent_step, bind, count_step. rewrite Hs.
  eexists _, _. split; [reflexivity |]. by split.
Qed.

(** An agent that never finishes uses the whole budget, whatever it is. *)
Lemma run_steps_exhausts (max_steps : nat) (agent : Agent) (w : World) :
  never_done env ->
  exists agent',
    fst (run_steps env (anti_detection_hook env) (retry_hook env)
                   max_steps agent w) = Ret agent' /\
    steps (snd (run_steps env (anti_detection_hook env) (retry_hook env)
                          max_steps agent w)) = steps w + max_steps.
Proof.
  intros [Hstep Hhooks]. revert agent w.
  induction max_steps as [|n IH]; intros agent w.
  - exists agent. simpl. split; [done | lia].
  - remember (run_steps env (anti_detection_hook env) (retry_hook env)
                        (S n) agent w) as res eqn:Hres.
    simpl in Hres. unfold bind at 1 in Hres.
    pose proof (anti_detection_hook_steps env agent w) as H1.
    destruct (anti_detection_hook_returns agent w Hhooks) as [a1 Hr1].
    destruct (anti_detection_hook env agent w) as [r1 w1];
      unfold unchanged in H1; simpl in H1, Hr1. subst r1.
    unfold bind at 1 in Hres.
    destruct (agent_step_continues a1 w1 Hstep) as (a2 & w2 & Heq2 & H2 & Hdone).
    rewrite Heq2 in Hres. unfold bind at 1 in Hres.
    pose proof (retry_hook_steps env a2 w2) as H3.
    destruct (retry_hook_returns a2 w2 Hhooks) as [a3 Hr3].
    pose proof (retry_hook_history a2 w2 a3 Hr3) as Hh.
    destruct (retry_hook env a2 w2) as [r3 w3];
      unfold unchanged in H3; simpl in H3, Hr3. subst r3.
    rewrite Hh, Hdone in Hres. subst res.
    destruct (IH a3 w3) as [a' [Hret Hsteps]].
    exists a'. split; [done |]. rewrite Hsteps. lia.
Qed.

Lemma session_steps (cfg : AgentConfig) (w : World) :
  steps (snd (session env cfg w)) <= steps w + 20.
Proof.
  unfold session, new_agent, bind, log_agent. simpl.
  destruct (env_agent_init env cfg) as [url|e]; simpl; [| lia].
  unfold agent_run, bind.
  set (a0 := mkAgent cfg [] url [] no_history).
  set (w0 := mkWorld _ _ _ _ _ _ _).
  pose proof (run_steps_bound 20 a0 w0) as Hb.
  destruct (run_steps env (anti_detection_hook env) (retry_hook env) 20 a0 w0)
    as [[a|e] w1]; simpl in *; exact (proj2 Hb).
Qed.

Lemma session_exhausts (cfg : AgentConfig) (w : World) :
  never_done env ->
  (exists url, env_agent_init env cfg = Ret url) ->
  exists hist,
    fst (session env cfg w) = Ret hist /\
    steps (snd (session env cfg w)) = steps w + 20.
Proof.
  intros Hnever [url Hinit].
  unfold session, new_agent, bind, log_agent. simpl. rewrite Hinit. simpl.
  unfold agent_run, bind.
  set (a0 := mkAgent cfg [] url [] no_history).
  set (w0 := mkWorld _ _ _ _ _ _ _).
  destruct (run_steps_exhausts 20 a0 w0 Hnever) as [a' [Hret Hsteps]].
  destruct (run_steps env (anti_detection_hook env) (retry_hook env) 20 a0 w0)
    as [r w1]; simpl in *. subst r. simpl. by eexists.
Qed.

End Budget.

(** More collaborators whose exceptions reach the boundary: an agent step
    that raises, and a dump that fails after the agent reported a final
    answer (the trace file then holds what the dump wrote before). *)
Lemma step_failure_reaches_boundary (env : Env) (booking_id : string)
    (w : World) (e : exn) (url : string) :
  files w !! steps_file = None ->
  env_agent_init env (fresh_config env booking_id) = Ret url ->
  hooks_succeed env ->
  (forall agent, env_step env agent = Raise e) ->
  fst (fetch_body env booking_id (the_llm env) w) = Raise e.
Proof.
  intros Hfile Hinit Hhooks Hstep. rewrite fetch_body_fresh by done.
  unfold session, new_agent, bind at 1, log_agent. rewrite Hinit. simpl.
  unfold agent_run, bind at 1. simpl. unfold bind at 1.
  set (a0 := mkAgent _ _ url _ _). set (w0 := mkWorld _ _ _ _ _ _ _).
  destruct (anti_detection_hook_returns env a0 w0 Hhooks) as [a1 Hr].
  destruct (anti_detection_hook env a0 w0) as [r w1]. simpl in Hr. subst r.
  unfold bind at 1, agent_step, bind at 1, count_step. by rewrite Hstep.
Qed.

Lemma dump_failure_reaches_boundary (env : Env) (booking_id text : string)
    (w w1 : World) (hist : History) (e : exn) :
  files w !! steps_file = None ->
  session env (fresh_config env booking_id) w = (Ret hist, w1) ->
  truthy (final_result hist) = true ->
  env_json_dump env (actions_value (reduce_actions (model_actions hist))) =
    (text, Some e) ->
  fst (fetch_body env booking_id (the_llm env) w) = Raise e /\
  files (snd (fetch_body env booking_id (the_llm env) w)) !! steps_file =
    Some text.
Proof.
  intros Hfile Hsession Hans Hdump.
  rewrite fetch_body_fresh, Hsession, Hans by done.
  unfold save_actions, json_dump, bind, write_text. rewrite Hdump. simpl.
  split; [done | apply lookup_insert_eq].
Qed.

(** C9. In both branches the agent run of [fetch_hmm] executes at most 20
    steps; an agent that never finishes executes exactly as many steps as
    the cap it is given, whatever the cap, so nothing but the cap stops
    it; and in [fetch_hmm] such an agent executes exactly 20 steps. *)
Theorem step_cap_is_the_only_bound (env : Env) :
  (forall booking_id w,
     steps (snd (fetch_hmm env booking_id w)) <= steps w + 20) /\
  (never_done env ->
   forall max_steps agent w,
     steps (snd (agent_run env agent (anti_detection_hook env) (retry_hook env)
                           max_steps w)) = steps w + max_steps) /\
  (never_done env -> setup_succeeds env ->
   forall booking_id w,
     steps (snd (fetch_hmm env booking_id w)) = steps w + 20).
Proof.
  split; [| split].
  - intros booking_id w.
    destruct (env_chat_google env (the_llm env)) as [e0|] eqn:Hllm.
    { rewrite (fetch_hmm_no_llm env booking_id w e0) by done. simpl. lia. }
    rewrite fetch_hmm_try by done.
    destruct (files w !! steps_file) as [text|] eqn:Hfile.
    + rewrite (fetch_body_replay env booking_id text) by done.
      destruct (env_json_load env text) as [v|e];
        [| destruct (is_Exception e); simpl; lia].
      pose proof (session_steps env (replay_config env booking_id v) w) as Hs.
      destruct (session env _ w) as [[hist|e] w1]; [exact Hs |].
      destruct (is_Exception e); exact Hs.
    + rewrite fetch_body_fresh by done.
      pose proof (session_steps env (fresh_config env booking_id) w) as Hs.
      destruct (session env _ w) as [[hist|e] w1]; simpl in Hs;
        [| destruct (is_Exception e); exact Hs].
      destruct (truthy (final_result hist)); [| exact Hs].
      pose proof (save_actions_steps env (model_actions hist) w1) as Hsa.
      unfold unchanged in Hsa.
      destruct (save_actions env _ w1) as [[[]|e] w2]; simpl in *; [lia |].
      destruct (is_Exception e); simpl; lia.
  - intros Hnever max_steps agent w. unfold agent_run, bind.
    destruct (run_steps_exhausts env max_steps agent w Hnever) as [a' [Hr Hs]].
    destruct (run_steps env _ _ max_steps agent w) as [r w1]; simpl in *.
    by subst r.
  - intros Hnever (Hllm & Hinit & Hload) booking_id w.
    rewrite fetch_hmm_try by done.
    destruct (files w !! steps_file) as [text|] eqn:Hfile.
    + rewrite (fetch_body_replay env booking_id text) by done.
      destruct (Hload text) as [v ->].
      destruct (session_exhausts env (replay_config env booking_id v) w Hnever
                  (Hinit _)) as [hist [Hr Hs]].
      destruct (session env _ w) as [r w1]; simpl in *. by subst r.
    + rewrite fetch_body_fresh by done.
      destruct (session_exhausts env (fresh_config env booking_id) w Hnever
                  (Hinit _)) as [hist [Hr Hs]].
      destruct (session env _ w) as [r w1]; simpl in *. subst r.
      destruct (truthy (final_result hist)); [| exact Hs].
      pose proof (save_actions_steps env (model_actions hist) w1) as Hsa.
      unfold unchanged in Hsa.
      destruct (save_actions env _ w1) as [[[]|e] w2]; simpl in *; [lia |].
      destruct (is_Exception e); simpl; lia.
Qed.

Lemma stubborn_env_never_done : never_done stubborn_env.
Proof.
  split; [| by split].
  intros agent. by exists target_url, no_history.
Qed.

Lemma stubborn_env_setup : setup_succeeds stubborn_env.
Proof.
  split; [done |]. split.
  - intros cfg. by eexists.
  - intros text. by eexists.
Qed.

Lemma step_cap_is_the_only_bound_witness :
  never_done stubborn_env /\
  setup_succeeds stubborn_env /\
  steps (snd (fetch_hmm stubborn_env "SINI25432400" empty_world)) = 20 /\
  steps (snd (fetch_hmm stubborn_env "SINI25432400" replay_world)) = 20 /\
  steps (snd (agent_run stubborn_env
                (mkAgent (fresh_config stubborn_env "SINI25432400") []
                         "about:blank" [] no_history)
                (anti_detection_hook stubborn_env) (retry_hook stubborn_env) 50
                empty_world)) = 50.
Proof.
  destruct (step_cap_is_the_only_bound stubborn_env) as [_ [Hrun Hfetch]].
  split; [exact stubborn_env_never_done |].
  split; [exact stubborn_env_setup |].
  split; [| split].
  - apply (Hfetch stubborn_env_never_done stubborn_env_setup).
  - apply (Hfetch stubborn_env_never_done stubborn_env_setup).
  - apply (Hrun stubborn_env_never_done).
Defined.

(** ** The retry hook *)

Lemma lower_app (a b : string) : lower (a ++ b) = (lower a ++ lower b)%string.
Proof.
  induction a as [|c a IH]; [done |].
  change (String (lower_ascii c) (lower (a ++ b)) =
          String (lower_ascii c) (lower a ++ lower b))%string.
  by rewrite IH.
Qed.

(** A decomposition of [lower s] comes from a decomposition of [s]. *)
Lemma lower_split (s a b : string) :
  lower s = (a ++ b)%string ->
  exists a' b', s = (a' ++ b')%string /\ lower a' = a /\ lower b' = b.
Proof.
  revert s. induction a as [|c a IH]; intros s H.
  - by exists EmptyString, s.
  - destruct s as [|d s]; [done |].
    change (String (lower_ascii d) (lower s) = String c (a ++ b)%string) in H.
    injection H as Hc Hs. destruct (IH s Hs) as (a' & b' & -> & Ha & Hb).
    exists (String d a'), b'. split; [done |]. split; [| done].
    simpl. by rewrite Hc, Ha.
Qed.

Lemma is_prefix_spec (p s : string) :
  is_prefix p s = true <-> exists t, s = (p ++ t)%string.
Proof.
  revert s. induction p as [|a p IH]; intros s; simpl.
  - split; [intros _; by exists s | done].
  - destruct s as [|b s].
    + split; [done | intros [t Ht]; discriminate].
    + rewrite andb_true_iff, Ascii.eqb_eq, IH. split.
      * intros [-> [t ->]]. by exists t.
      * intros [t Ht].
        change (String b s = String a (p ++ t)%string) in Ht.
        injection Ht as -> ->. split; [done | by exists t].
Qed.

Lemma contains_spec (needle hay : string) :
  contains needle hay = true <-> occurs needle hay.
Proof.
  unfold occurs. induction hay as [|c hay IH].
  - simpl. rewrite orb_false_r, is_prefix_spec. split.
    + intros [t Ht]. by exists EmptyString, t.
    + intros [pre [post H]]. destruct pre; [by exists post | discriminate].
  - change (contains needle (String c hay))
      with (is_prefix needle (String c hay) || contains needle hay).
    rewrite orb_true_iff, is_prefix_spec, IH. split.
    + intros [[t Ht] | [pre [post ->]]].
      * by exists EmptyString, t.
      * by exists (String c pre), post.
    + intros [[|d pre] [post H]].
      * left. by exists post.
      * right.
        change (String c hay = String d (pre ++ needle ++ post)%string) in H.
        injection H as -> ->. by exists pre, post.
Qed.

Lemma indicators_are_lower (err : string) :
  In err error_indicators -> lower err = err.
Proof.
  unfold error_indicators. simpl.
  intros [<- | [<- | [<- | [<- | [<- | []]]]]]; reflexivity.
Qed.

(** The test of the hook is the case-insensitive occurrence of the
    specification. *)
Lemma contains_lower_spec (err url : string) :
  lower err = err ->
  contains err (lower url) = true <-> occurs_ci err url.
Proof.
  intros Herr. rewrite contains_spec. unfold occurs, occurs_ci. split.
  - intros (pre & post & H).
    apply lower_split in H as (pre' & rest & -> & Hpre & H).
    apply lower_split in H as (mid & post' & -> & Hmid & Hpost).
    exists pre', mid, post'. split; [done | congruence].
  - intros (pre & mid & post & -> & Hmid).
    exists (lower pre), (lower post).
    rewrite !lower_app. congruence.
Qed.

Lemma retry_test_spec (url : string) :
  existsb (fun err => contains err (lower url)) error_indicators = true <->
  failure_address url.
Proof.
  rewrite existsb_exists. unfold failure_address. split.
  - intros (err & Hin & Hc). exists err. split; [done |].
    by apply contains_lower_spec; [apply indicators_are_lower |].
  - intros (err & Hin & Hc). exists err. split; [done |].
    by apply contains_lower_spec; [apply indicators_are_lower |].
Qed.

Lemma retry_hook_after_page (env : Env) (agent : Agent) (w : World) :
  env_current_page env agent = None ->
  retry_hook env agent w =
  if existsb (fun err => contains err (lower (page_url agent))) error_indicators
  then (Ret (add_new_task retry_message agent), snd (print retry_notice w))
  else (Ret agent, w).
Proof.
  intros Hpage. unfold retry_hook, get_current_page, bind. rewrite Hpage.
  by destruct (existsb _ error_indicators).
Qed.



Example retry_hook_on_error_page :
  let agent := mkAgent (fresh_config failing_env "SINI25432400") []
                       "http://www.seacargotracking.net/Error.aspx?id=7" []
                       no_history in
  added_tasks <$> (match fst (retry_hook failing_env agent empty_world) with
                   | Ret a => Some a | Raise _ => None end) =
  Some [retry_message].
Proof. reflexivity. Qed.

Example retry_hook_on_result_page :
  let agent := mkAgent (fresh_config failing_env "SINI25432400") []
                       "http://www.hmm21.com/cms/business/ebiz/trackTrace" []
                       no_history in
  retry_hook failing_env agent empty_world = (Ret agent, empty_world).
Proof. reflexivity. Qed.

(** ** What [save_actions] writes *)

Lemma save_actions_writes (env : Env) (stored : list action_record) (w : World) :
  files (snd (save_actions env stored w)) !! steps_file =
  Some (fst (env_json_dump env (actions_value (reduce_actions stored)))).
Proof. rewrite save_actions_files. apply lookup_insert_eq. Qed.

Lemma keeps_one_action_no_aux (action emitted : action_record) (v : pyval) :
  keeps_one_action action emitted -> ~ In (interacted_element, v) emitted.
Proof.
  intros (name & parameters & -> & Hname & _) [H | []]. congruence.
Qed.

Lemma filter_all_true (stored : list action_record) :
  Forall (fun action => has_action action = true) stored ->
  filter has_action stored = stored.
Proof.
  induction 1 as [|action rest Hh _ IH]; [done |].
  rewrite filter_cons_True by (by rewrite Hh). by rewrite IH.
Qed.

(** C1, as amended. The list [save_actions] dumps into
    [agent_action_steps.json] holds, in order, one record for every input
    record that has a key other than ['interacted_element']; each emitted
    record has exactly one key, an action key of its input record, and so
    never the auxiliary field.  When every input record has an action key
    this is one emitted record per input record. *)
Theorem save_actions_keeps_one_action (env : Env)
    (stored : list action_record) (w : World) :
  files (snd (save_actions env stored w)) !! steps_file =
    Some (fst (env_json_dump env (actions_value (reduce_actions stored)))) /\
  one_action_per_record (filter has_action stored) (reduce_actions stored) /\
  Forall (fun emitted => forall v, ~ In (interacted_element, v) emitted)
         (reduce_actions stored) /\
  (Forall (fun action => has_action action = true) stored ->
   one_action_per_record stored (reduce_actions stored)).
Proof.
  pose proof (reduce_actions_keeps stored) as Hk.
  split; [apply save_actions_writes |]. split; [exact Hk |]. split.
  - unfold one_action_per_record in Hk.
    induction Hk as [|action emitted l k H _ IH]; constructor; [| exact IH].
    intros v. by apply (keeps_one_action_no_aux action).
  - intros Hall. by rewrite (filter_all_true stored Hall) in Hk.
Qed.

(** C1, as stated, fails on a record that holds only the auxiliary field:
    nothing is emitted for it. *)
Lemma aux_only_record_emits_nothing :
  ~ one_action_per_record [aux_only_record] (reduce_actions [aux_only_record]).
Proof. intros H. inversion H. Qed.

Example sample_actions_reduced :
  reduce_actions sample_actions =
  [ [("go_to_url", PyDict [("url", PyStr target_url)])];
    [("click_element_by_index", PyDict [("index", PyInt 12)])] ].
Proof. reflexivity. Qed.

(** C10. The list [save_actions] dumps is an order-preserving reduction of
    its input: the reduction of a concatenation is the concatenation of the
    reductions; a record contributes the first entry whose key is not
    ['interacted_element'], parameters unchanged, and nothing else; a
    record with no such entry (empty, or holding only the auxiliary field)
    contributes nothing; so the output is never longer than the input and
    can be strictly shorter. *)
Theorem save_actions_order_preserving (env : Env)
    (stored : list action_record) (w : World) :
  files (snd (save_actions env stored w)) !! steps_file =
    Some (fst (env_json_dump env (actions_value (reduce_actions stored)))) /\
  reduce_actions stored = ordered_reduction stored /\
  (forall l1 l2,
     reduce_actions (l1 ++ l2) = reduce_actions l1 ++ reduce_actions l2) /\
  (forall vs name parameters rest,
     name <> interacted_element ->
     reduce_actions
       [map (pair interacted_element) vs ++ (name, parameters) :: rest] =
     [[(name, parameters)]]) /\
  (forall vs, reduce_actions [map (pair interacted_element) vs] = []) /\
  length (reduce_actions stored) <= length stored /\
  length (reduce_actions [aux_only_record]) < length [aux_only_record].
Proof.
  split; [apply save_actions_writes |].
  split; [apply reduce_actions_ordered |].
  split; [apply reduce_actions_app |].
  split; [| split; [| split; [apply reduce_actions_length | simpl; lia]]].
  - intros vs name parameters rest Hname.
    rewrite reduce_actions_cons, scan_items_first, first_action_entry_skip.
    unfold first_action_entry. simpl. unfold is_action_entry at 1. simpl.
    apply String.eqb_neq in Hname. by rewrite Hname.
  - intros vs.
    rewrite reduce_actions_cons, scan_items_first.
    rewrite <- (app_nil_r (map _ vs)), first_action_entry_skip. done.
Qed.

(** * Further properties of the script *)

(** ** The reduction of the trace *)

Lemma reduce_actions_single (kv : string * pyval) :
  fst kv <> interacted_element -> reduce_actions [[kv]] = [[kv]].
Proof.
  intros Hk. destruct kv as [name parameters]. simpl in Hk.
  unfold reduce_actions. simpl.
  apply String.eqb_neq in Hk. by rewrite Hk.
Qed.

(** X1. Reducing a trace that is already reduced changes nothing: what
    [save_actions] wrote can be handed to [save_actions] again. *)
Theorem reduce_actions_idempotent (stored : list action_record) :
  reduce_actions (reduce_actions stored) = reduce_actions stored.
Proof.
  induction stored as [|action rest IH]; [done |].
  rewrite reduce_actions_cons, scan_items_first, reduce_actions_app, IH.
  destruct (first_action_entry action) as [kv|] eqn:E; [| done].
  apply first_action_entry_In in E as [Hk _].
  by rewrite (reduce_actions_single kv Hk).
Qed.

(** X2. On records in the shape the agent framework reports (an action
    whose name is not ['interacted_element'], then the auxiliary field) the
    reduction keeps every record, in order, and only drops the auxiliary
    field. *)
Theorem reduce_actions_reported (l : list (string * pyval * pyval)) :
  Forall (fun t => fst (fst t) <> interacted_element) l ->
  reduce_actions (map reported_record l) = map replayed_record l /\
  length (reduce_actions (map reported_record l)) = length l.
Proof.
  intros Hl.
  assert (H : reduce_actions (map reported_record l) = map replayed_record l).
  { induction Hl as [|[[name parameters] element] rest Hname _ IH]; [done |].
    simpl in Hname. rewrite !map_cons, reduce_actions_cons, IH.
    simpl. apply String.eqb_neq in Hname. by rewrite Hname. }
  split; [exact H |]. by rewrite H, length_map.
Qed.

Lemma reduce_actions_reported_witness :
  let l := [("go_to_url", PyDict [("url", PyStr target_url)], PyNone);
            ("click_element_by_index", PyDict [("index", PyInt 12)],
             PyObj "DOMHistoryElement")] in
  Forall (fun t => fst (fst t) <> interacted_element) l /\
  reduce_actions (map reported_record l) = map replayed_record l /\
  length (reduce_actions (map reported_record l)) = length l.
Proof.
  assert (H : Forall (fun t : string * pyval * pyval =>
                        fst (fst t) <> interacted_element)
                [("go_to_url", PyDict [("url", PyStr target_url)], PyNone);
                 ("click_element_by_index", PyDict [("index", PyInt 12)],
                  PyObj "DOMHistoryElement")]).
  { repeat constructor; simpl; discriminate. }
  split; [exact H |]. exact (reduce_actions_reported _ H).
Defined.

(** ** What [save_actions] does to the world *)

Lemma save_actions_effect (env : Env) (stored : list action_record) (w : World) :
  save_actions env stored w =
  (match snd (env_json_dump env (actions_value (reduce_actions stored))) with
   | None => Ret tt
   | Some e => Raise e
   end,
   mkWorld (<[steps_file := dumped_text env stored]> (files w)) (stdout w)
           (slept w) (rng w) (agents w) (steps w) (runs w)).
Proof.
  unfold save_actions, json_dump, dumped_text, bind, write_text. simpl.
  destruct (env_json_dump env (actions_value (reduce_actions stored)))
    as [text [e|]]; simpl; by rewrite insert_insert_eq.
Qed.

(** X3. [save_actions] overwrites the trace wholesale and touches nothing
    else: saving a second trace after a first one leaves the world exactly
    as saving the second one alone, and a save changes no other file, no
    output and no record of the agent framework. *)
Theorem save_actions_overwrites (env : Env) (first second : list action_record)
    (w : World) :
  snd (save_actions env second (snd (save_actions env first w))) =
    snd (save_actions env second w) /\
  (forall path, path <> steps_file ->
     files (snd (save_actions env first w)) !! path = files w !! path) /\
  stdout (snd (save_actions env first w)) = stdout w /\
  agents (snd (save_actions env first w)) = agents w /\
  runs (snd (save_actions env first w)) = runs w.
Proof.
  rewrite !save_actions_effect. simpl.
  split; [by rewrite insert_insert_eq |].
  split; [| done].
  intros path Hpath. by rewrite lookup_insert_ne.
Qed.

(** ** The value and the failures of [fetch_hmm] *)

Lemma truthy_spec (final : option string) :
  truthy final = true <-> exists s, final = Some s /\ s <> "".
Proof.
  destruct final as [s|]; simpl.
  - rewrite negb_true_iff, String.eqb_neq. split.
    + intros Hs. by exists s.
    + by intros (s' & [= <-] & Hs).
  - split; [done | by intros (s & ? & _)].
Qed.

Lemma fetch_body_nonempty (env : Env) (booking_id : string) (w w1 : World)
    (r : option string) :
  fetch_body env booking_id (the_llm env) w = (Ret r, w1) ->
  exists s, r = Some s /\ s <> "".
Proof.
  destruct (files w !! steps_file) as [text|] eqn:Hfile.
  - rewrite (fetch_body_replay env booking_id text) by done.
    destruct (env_json_load env text) as [v|e]; [| done].
    destruct (session env _ w) as [[hist|e] w2]; [| done].
    intros [= <- <-].
    destruct (truthy (final_result hist)) eqn:Hans.
    + by apply truthy_spec.
    + by exists no_results.
  - rewrite fetch_body_fresh by done.
    destruct (session env _ w) as [[hist|e] w2]; [| done].
    destruct (truthy (final_result hist)) eqn:Hans.
    + destruct (save_actions env _ w2) as [[[]|e] w3]; [| done].
      intros [= <- <-]. by apply truthy_spec.
    + intros [= <- <-]. by exists no_results.
Qed.

(** X5. When the client is built, [fetch_hmm] returns [None] exactly when
    an exception was caught at its boundary, and a string it returns is
    never empty. *)
Theorem fetch_hmm_result_shape (env : Env) (booking_id : string) (w : World) :
  env_chat_google env (the_llm env) = None ->
  (fst (fetch_hmm env booking_id w) = Ret None <->
   exists e w1,
     fetch_body env booking_id (the_llm env) w = (Raise e, w1) /\
     is_Exception e = true) /\
  (forall s, fst (fetch_hmm env booking_id w) = Ret (Some s) -> s <> "").
Proof.
  intros Hllm. rewrite fetch_hmm_try by done.
  destruct (fetch_body env booking_id (the_llm env) w) as [[r|e] w1] eqn:Hbody.
  - apply fetch_body_nonempty in Hbody as (s & -> & Hs). simpl. split.
    + split; [done | by intros (e & w2 & ? & _)].
    + by intros s' [= <-].
  - destruct (is_Exception e) eqn:He; simpl; split.
    + split; [intros _; by exists e, w1 | done].
    + done.
    + split; [done |]. intros (e' & w2 & [= <- <-] & He'). congruence.
    + done.
Qed.

Lemma fetch_hmm_result_shape_witness :
  env_chat_google failing_env (the_llm failing_env) = None /\
  (fst (fetch_hmm failing_env "SINI25432400" empty_world) = Ret None <->
   exists e w1,
     fetch_body failing_env "SINI25432400" (the_llm failing_env) empty_world =
       (Raise e, w1) /\
     is_Exception e = true) /\
  (forall s,
     fst (fetch_hmm failing_env "SINI25432400" empty_world) = Ret (Some s) ->
     s <> "").
Proof.
  split; [reflexivity |].
  exact (fetch_hmm_result_shape failing_env "SINI25432400" empty_world eq_refl).
Defined.

(** X4. When the dump of the trace fails after a fresh run that produced a
    final answer, the answer is lost: [fetch_hmm] returns [None] and prints
    the error, and the trace file is left holding what the dump had
    written. *)
Theorem failed_save_loses_answer (env : Env) (booking_id text : string)
    (w w1 : World) (hist : History) (e : exn) :
  env_chat_google env (the_llm env) = None ->
  files w !! steps_file = None ->
  session env (fresh_config env booking_id) w = (Ret hist, w1) ->
  truthy (final_result hist) = true ->
  env_json_dump env (actions_value (reduce_actions (model_actions hist))) =
    (text, Some e) ->
  is_Exception e = true ->
  fst (fetch_hmm env booking_id w) = Ret None /\
  files (snd (fetch_hmm env booking_id w)) !! steps_file = Some text /\
  stdout (snd (fetch_hmm env booking_id w)) =
    stdout w1 ++ [("Error during cleanup: " ++ exn_str e)%string].
Proof.
  intros Hllm Hfile Hsession Hans Hdump He.
  rewrite fetch_hmm_try, fetch_body_fresh, Hsession, Hans by done.
  rewrite save_actions_effect. unfold dumped_text. rewrite Hdump. simpl.
  rewrite He. simpl. split; [done |]. split; [apply lookup_insert_eq | done].
Qed.

Lemma failed_save_loses_answer_witness :
  let env := unserialisable_env in
  let e := PyException "Object is not JSON serializable" in
  let w1 := snd (session env (fresh_config env "SINI25432400") empty_world) in
  fst (session env (fresh_config env "SINI25432400") empty_world) =
    Ret (mkHistory (Some "Voyage: 0012W, Arrival: 2025-07-01")
                   sample_actions true) /\
  fst (fetch_hmm env "SINI25432400" empty_world) = Ret None /\
  files (snd (fetch_hmm env "SINI25432400" empty_world)) !! steps_file =
    Some "[" /\
  stdout (snd (fetch_hmm env "SINI25432400" empty_world)) =
    stdout w1 ++ [("Error during cleanup: " ++ exn_str e)%string].
Proof.
  split; [reflexivity |].
  apply (failed_save_loses_answer unserialisable_env "SINI25432400" "["
           empty_world _
           (mkHistory (Some "Voyage: 0012W, Arrival: 2025-07-01")
                      sample_actions true));
    reflexivity.
Defined.

(** X6. An exception that is not an instance of [Exception] (an interrupt
    from the keyboard, a cancellation) is caught neither by [fetch_hmm] nor
    by [main]: it leaves both, and neither prints anything for it. *)
Theorem base_exceptions_propagate (env : Env) (booking_id msg : string)
    (w w1 : World) :
  env_chat_google env (the_llm env) = None ->
  fetch_body env booking_id (the_llm env) w = (Raise (PyBaseException msg), w1) ->
  fetch_hmm env booking_id w = (Raise (PyBaseException msg), w1) /\
  (booking_id = "SINI25432400" ->
   main env w = (Raise (PyBaseException msg), w1)).
Proof.
  intros Hllm Hbody.
  assert (H : fetch_hmm env booking_id w = (Raise (PyBaseException msg), w1)).
  { rewrite fetch_hmm_try by done. by rewrite Hbody. }
  split; [exact H |]. intros ->.
  unfold main, try_except, bind. by rewrite H.
Qed.

Lemma base_exceptions_propagate_witness :
  let env := interrupted_env in
  let w1 := snd (fetch_body env "SINI25432400" (the_llm env) empty_world) in
  stdout w1 = [] /\
  fetch_hmm env "SINI25432400" empty_world =
    (Raise (PyBaseException "KeyboardInterrupt"), w1) /\
  ("SINI25432400" = "SINI25432400" ->
   main env empty_world = (Raise (PyBaseException "KeyboardInterrupt"), w1)).
Proof.
  split; [reflexivity |].
  apply (base_exceptions_propagate interrupted_env "SINI25432400"
           "KeyboardInterrupt" empty_world); reflexivity.
Defined.

(** ** The life of the trace file *)

(** X7. A fresh run that produces a final answer and dumps its trace
    returns that answer and leaves the dump in the trace file; every later
    invocation, for any booking identifier, then builds the replay agent
    seeded with the parsed dump and leaves the files as they are. *)
Theorem fresh_run_seeds_replay (env : Env) (booking_id text : string)
    (v : pyval) (w w1 : World) (hist : History) :
  env_chat_google env (the_llm env) = None ->
  files w !! steps_file = None ->
  session env (fresh_config env booking_id) w = (Ret hist, w1) ->
  truthy (final_result hist) = true ->
  env_json_dump env (actions_value (reduce_actions (model_actions hist))) =
    (text, None) ->
  env_json_load env text = Ret v ->
  let w' := snd (fetch_hmm env booking_id w) in
  fst (fetch_hmm env booking_id w) = Ret (final_result hist) /\
  files w' !! steps_file = Some text /\
  forall next_id,
    agents (snd (fetch_hmm env next_id w')) =
      agents w' ++ [replay_config env next_id v] /\
    files (snd (fetch_hmm env next_id w')) = files w'.
Proof.
  intros Hllm Hfile Hsession Hans Hdump Hload w'.
  assert (Hw' : fetch_hmm env booking_id w =
                (Ret (final_result hist),
                 mkWorld (<[steps_file := text]> (files w1)) (stdout w1)
                         (slept w1) (rng w1) (agents w1) (steps w1) (runs w1))).
  { rewrite fetch_hmm_try, fetch_body_fresh, Hsession, Hans by done.
    rewrite save_actions_effect. unfold dumped_text. by rewrite Hdump. }
  subst w'. rewrite Hw'. simpl.
  split; [done |]. split; [apply lookup_insert_eq |].
  intros next_id.
  set (w2 := mkWorld _ _ _ _ _ _ _).
  assert (Hfile2 : files w2 !! steps_file = Some text)
    by apply lookup_insert_eq.
  split.
  - by apply (fetch_hmm_agents_replay env next_id text v w2).
  - destruct (fetch_hmm_write_cases env next_id w2)
      as [[Hsame _] | [Hnone _]]; [exact Hsame | congruence].
Qed.

Lemma fresh_run_seeds_replay_witness :
  let env := scripted_env (Some "Voyage: 0012W, Arrival: 2025-07-01") in
  let w' := snd (fetch_hmm env "SINI25432400" empty_world) in
  files empty_world !! steps_file = None /\
  fst (fetch_hmm env "SINI25432400" empty_world) =
    Ret (Some "Voyage: 0012W, Arrival: 2025-07-01") /\
  files w' !! steps_file = Some "[]" /\
  forall next_id,
    agents (snd (fetch_hmm env next_id w')) =
      agents w' ++ [replay_config env next_id (PyList [])] /\
    files (snd (fetch_hmm env next_id w')) = files w'.
Proof.
  split; [reflexivity |].
  apply (fresh_run_seeds_replay
           (scripted_env (Some "Voyage: 0012W, Arrival: 2025-07-01"))
           "SINI25432400" "[]" (PyList []) empty_world
           (snd (session (scripted_env (Some "Voyage: 0012W, Arrival: 2025-07-01"))
                         (fresh_config
                            (scripted_env (Some "Voyage: 0012W, Arrival: 2025-07-01"))
                            "SINI25432400") empty_world))
           (mkHistory (Some "Voyage: 0012W, Arrival: 2025-07-01")
                      sample_actions true));
    reflexivity.
Defined.

(** X8. [fetch_hmm] never touches a file other than the trace file and
    never removes a file: every other path reads as before, and a path
    that existed still exists. *)
Theorem fetch_hmm_other_files (env : Env) (booking_id path : string) (w : World) :
  (path <> steps_file ->
   files (snd (fetch_hmm env booking_id w)) !! path = files w !! path) /\
  (is_Some (files w !! path) ->
   is_Some (files (snd (fetch_hmm env booking_id w)) !! path)).
Proof.
  destruct (fetch_hmm_write_cases env booking_id w)
    as [[Hsame _] | [Hnone [hist [_ [_ Hfiles]]]]].
  - rewrite Hsame. done.
  - rewrite Hfiles. split.
    + intros Hpath. by rewrite lookup_insert_ne.
    + intros Hsome. destruct (decide (path = steps_file)) as [-> | Hne].
      * rewrite lookup_insert_eq. by eexists.
      * by rewrite lookup_insert_ne.
Qed.

(** X12. A trace file that does not parse is never repaired: [fetch_hmm]
    returns [None], builds no agent, runs no step, leaves the file as it
    is, and so fails in the same way at the next invocation. *)
Theorem corrupt_trace_is_sticky (env : Env) (booking_id next_id text : string)
    (e : exn) (w : World) :
  env_chat_google env (the_llm env) = None ->
  files w !! steps_file = Some text ->
  env_json_load env text = Raise e ->
  is_Exception e = true ->
  fetch_hmm env booking_id w = (Ret None, logged e w) /\
  fetch_hmm env next_id (logged e w) = (Ret None, logged e (logged e w)) /\
  files (snd (fetch_hmm env booking_id w)) = files w /\
  agents (snd (fetch_hmm env booking_id w)) = agents w /\
  steps (snd (fetch_hmm env booking_id w)) = steps w.
Proof.
  intros Hllm Hfile Hload He.
  assert (H : forall b w0, files w0 !! steps_file = Some text ->
                           fetch_hmm env b w0 = (Ret None, logged e w0)).
  { intros b w0 Hw0.
    rewrite fetch_hmm_try, (fetch_body_replay env b text), Hload by done.
    by rewrite He. }
  split; [by apply H |]. split; [by apply H |]. by rewrite (H booking_id w).
Qed.

Lemma corrupt_trace_is_sticky_witness :
  let e := PyException "Expecting value: line 1 column 1 (char 0)" in
  files replay_world !! steps_file = Some "[]" /\
  fetch_hmm corrupt_env "SINI25432400" replay_world =
    (Ret None, logged e replay_world) /\
  fetch_hmm corrupt_env "HKGA1234567" (logged e replay_world) =
    (Ret None, logged e (logged e replay_world)) /\
  files (snd (fetch_hmm corrupt_env "SINI25432400" replay_world)) =
    files replay_world /\
  agents (snd (fetch_hmm corrupt_env "SINI25432400" replay_world)) =
    agents replay_world /\
  steps (snd (fetch_hmm corrupt_env "SINI25432400" replay_world)) =
    steps replay_world.
Proof.
  split; [reflexivity |].
  apply (corrupt_trace_is_sticky corrupt_env "SINI25432400" "HKGA1234567" "[]");
    reflexivity.
Defined.

(** ** [main] *)

(** X9. [main] lets no [Exception] out.  When [fetch_hmm] returns, [main]
    prints one line, ["Results: "] followed by the value; when the client
    cannot be built, the exception of [ChatGoogle(...)] passes through
    [fetch_hmm] and [main] prints ["Error: "] followed by its message,
    nothing else having happened. *)
Theorem main_reports (env : Env) (w : World) :
  (forall msg, fst (main env w) <> Raise (PyException msg)) /\
  (forall r w',
     fetch_hmm env "SINI25432400" w = (Ret r, w') ->
     main env w = (Ret tt, snd (print ("Results: " ++ py_str r) w'))) /\
  (forall msg,
     env_chat_google env (the_llm env) = Some (PyException msg) ->
     fetch_hmm env "SINI25432400" w = (Raise (PyException msg), w) /\
     main env w = (Ret tt, snd (print ("Error: " ++ msg) w))).
Proof.
  split; [| split].
  - intros msg. unfold main, try_except, bind.
    destruct (fetch_hmm env "SINI25432400" w) as [[r|e] w']; [done |].
    by destruct e.
  - intros r w' H. unfold main, try_except, bind. by rewrite H.
  - intros msg Hllm.
    pose proof (fetch_hmm_no_llm env "SINI25432400" w _ Hllm) as H.
    split; [exact H |]. unfold main, try_except, bind. by rewrite H.
Qed.

Example main_without_client :
  main no_client_env empty_world =
  (Ret tt, mkWorld ∅ ["Error: api_key must be set"] [] 0 [] 0 []).
Proof. reflexivity. Qed.

Example main_with_answer :
  stdout (snd (main (scripted_env (Some "Voyage: 0012W, Arrival: 2025-07-01"))
                    empty_world)) =
  ["Results: Voyage: 0012W, Arrival: 2025-07-01"].
Proof. reflexivity. Qed.

(** ** The hooks, one invocation and many *)

Lemma anti_detection_hook_effect (env : Env) (agent : Agent) (w : World) :
  anti_detection_hook env agent w =
  match env_current_page env agent with
  | Some e => (Raise e, w)
  | None =>
      if Qlt_bool (env_random env (S (rng w))) (3 # 10)
      then (match env_mouse_move env agent
                    (env_randint env (S (S (rng w))) 100 800)
                    (env_randint env (S (S (S (rng w)))) 100 600) with
            | None =>
                Ret (mouse_move (env_randint env (S (S (rng w))) 100 800)
                                (env_randint env (S (S (S (rng w)))) 100 600)
                                agent)
            | Some e => Raise e
            end,
            mkWorld (files w) (stdout w)
                    (slept w ++ [(1 + (3 - 1) * env_random env (rng w))%Q])
                    (S (S (S (S (rng w))))) (agents w) (steps w) (runs w))
      else (Ret agent,
            mkWorld (files w) (stdout w)
                    (slept w ++ [(1 + (3 - 1) * env_random env (rng w))%Q])
                    (S (S (rng w))) (agents w) (steps w) (runs w))
  end.
Proof.
  unfold anti_detection_hook, get_current_page, page_mouse_move,
    random_uniform, random_random, random_randint,
    bind, next_draw, sleep, ret.
  destruct (env_current_page env agent) as [e|]; [done |]. simpl.
  destruct (Qlt_bool _ _); [| done].
  by destruct (env_mouse_move env agent _ _).
Qed.

(** X11. One invocation of the pacing hook never prints and never touches
    a file.  If the current page cannot be obtained it raises at once,
    before sleeping, and the world is as it was.  Otherwise it sleeps
    exactly once; if it returns, the arguments, the added tasks, the page
    address and the history of the agent are as they were and the pointer
    has moved at most once, to a point of the window [100, 800] x
    [100, 600] when [random.randint] keeps to its bounds; and it raises
    only with the exception of the pointer move. *)
Theorem anti_detection_hook_is_harmless (env : Env) (agent : Agent) (w : World) :
  (forall n a b, (a <= b)%Z -> (a <= env_randint env n a b <= b)%Z) ->
  files (snd (anti_detection_hook env agent w)) = files w /\
  stdout (snd (anti_detection_hook env agent w)) = stdout w /\
  (forall e, env_current_page env agent = Some e ->
     anti_detection_hook env agent w = (Raise e, w)) /\
  (env_current_page env agent = None ->
     length (slept (snd (anti_detection_hook env agent w))) =
       S (length (slept w)) /\
     (forall agent',
        fst (anti_detection_hook env agent w) = Ret agent' ->
        agent_cfg agent' = agent_cfg agent /\
        added_tasks agent' = added_tasks agent /\
        page_url agent' = page_url agent /\
        history agent' = history agent /\
        (mouse_moves agent' = mouse_moves agent \/
         exists x y,
           mouse_moves agent' = mouse_moves agent ++ [(x, y)] /\
           (100 <= x <= 800)%Z /\ (100 <= y <= 600)%Z)) /\
     (forall e,
        fst (anti_detection_hook env agent w) = Raise e ->
        exists x y, env_mouse_move env agent x y = Some e)).
Proof.
  intros Hrandint. rewrite anti_detection_hook_effect.
  destruct (env_current_page env agent) as [e0|].
  - split; [done |]. split; [done |]. split; [by intros e [= <-] | done].
  - destruct (Qlt_bool _ _).
    + simpl. split; [done |]. split; [done |]. split; [done |]. intros _.
      split; [rewrite length_app; simpl; lia |].
      destruct (env_mouse_move env agent _ _) as [e|] eqn:Hmove; split.
      * done.
      * intros e' [= <-]. eauto.
      * intros agent' [= <-]. simpl. repeat (split; [done |]).
        right. eexists _, _. split; [reflexivity |].
        split; apply Hrandint; lia.
      * done.
    + simpl. split; [done |]. split; [done |]. split; [done |]. intros _.
      split; [rewrite length_app; simpl; lia |]. split; [| done].
      intros agent' [= <-]. repeat (split; [done |]). by left.
Qed.

Lemma anti_detection_hook_is_harmless_witness :
  (forall n a b, (a <= b)%Z -> (a <= env_randint restless_env n a b <= b)%Z) /\
  env_current_page restless_env error_page_agent = None /\
  fst (anti_detection_hook restless_env error_page_agent empty_world) =
    Ret (mouse_move 800 600 error_page_agent) /\
  length (slept (snd (anti_detection_hook restless_env error_page_agent
                                          empty_world))) =
    S (length (slept empty_world)).
Proof.
  assert (H : forall n a b, (a <= b)%Z ->
                (a <= env_randint restless_env n a b <= b)%Z).
  { intros n a b Hab. simpl. lia. }
  split; [exact H |]. split; [reflexivity |]. split; [reflexivity |].
  exact (proj1 (proj2 (proj2 (proj2
           (anti_detection_hook_is_harmless restless_env error_page_agent
              empty_world H))) eq_refl)).
Defined.

Example restless_pointer_moves :
  mouse_moves <$>
    (match fst (anti_detection_hook restless_env error_page_agent empty_world)
     with Ret a => Some a | Raise _ => None end) =
  Some [(800%Z, 600%Z)].
Proof. reflexivity. Qed.

Lemma retry_hook_fires (env : Env) (agent : Agent) (w : World) :
  env_current_page env agent = None ->
  failure_address (page_url agent) ->
  retry_hook env agent w =
  (Ret (add_new_task retry_message agent), snd (print retry_notice w)).
Proof.
  intros Hpage Hfail. apply retry_test_spec in Hfail.
  rewrite retry_hook_after_page by done. by rewrite Hfail.
Qed.

(** X13. The retry hook does not remember that it fired: invoked twice in
    a row, the page being obtained both times, on a page whose address
    contains a failure substring, it prints the notice twice and enqueues
    the retry instruction twice. *)
Theorem retry_hook_repeats (env : Env) (agent : Agent) (w : World) :
  (forall a, env_current_page env a = None) ->
  failure_address (page_url agent) ->
  exists agent2 w2,
    (let! agent1 := retry_hook env agent in retry_hook env agent1) w =
      (Ret agent2, w2) /\
    added_tasks agent2 = added_tasks agent ++ [retry_message; retry_message] /\
    stdout w2 = stdout w ++ [retry_notice; retry_notice] /\
    page_url agent2 = page_url agent.
Proof.
  intros Hpage Hfail. unfold bind.
  rewrite (retry_hook_fires env agent w (Hpage _) Hfail).
  rewrite (retry_hook_fires env (add_new_task retry_message agent) _
             (Hpage _) Hfail).
  eexists _, _. split; [reflexivity |]. simpl.
  by rewrite <- !app_assoc.
Qed.

Lemma failure_address_error_page :
  failure_address (page_url error_page_agent).
Proof. apply retry_test_spec. reflexivity. Qed.

Lemma retry_hook_repeats_witness :
  (forall a, env_current_page restless_env a = None) /\
  failure_address (page_url error_page_agent) /\
  exists agent2 w2,
    (let! agent1 := retry_hook restless_env error_page_agent
     in retry_hook restless_env agent1) empty_world = (Ret agent2, w2) /\
    added_tasks agent2 =
      added_tasks error_page_agent ++ [retry_message; retry_message] /\
    stdout w2 = stdout empty_world ++ [retry_notice; retry_notice] /\
    page_url agent2 = page_url error_page_agent.
Proof.
  split; [done |]. split; [exact failure_address_error_page |].
  exact (retry_hook_repeats restless_env error_page_agent empty_world
           (fun _ => eq_refl) failure_address_error_page).
Defined.





Example restless_run_retries :
  match run_steps restless_env (anti_detection_hook restless_env) (retry_hook restless_env)
                  20 error_page_agent empty_world with
  | (Ret agent', w') =>
      added_tasks agent' = repeat retry_message 20 /\
      stdout w' = repeat retry_notice 20 /\
      length (slept w') = 20 /\ steps w' = 20
  | (Raise _, _) => False
  end.
Proof. vm_compute. repeat split. Qed.

(** ** The prompts *)

Lemma occurs_here (needle post : string) : occurs needle (needle ++ post)%string.
Proof. by exists EmptyString, post. Qed.

Lemma occurs_skip (needle p t : string) :
  occurs needle t -> occurs needle (p ++ t)%string.
Proof.
  intros (pre & post & ->). exists (p ++ pre)%string, post.
  by rewrite str_app_assoc.
Qed.

Lemma occurs_last (needle : string) : occurs needle needle.
Proof.
  exists EmptyString, EmptyString.
  induction needle as [|c needle IH]; [done |].
  change (String c needle = String c (EmptyString ++ needle ++ EmptyString)%string).
  by rewrite <- IH.
Qed.

Ltac find_occurrence :=
  repeat first [ apply occurs_here | apply occurs_last | apply occurs_skip ].

(** X14. Whatever the booking identifier is, it is copied as it stands into
    both replay prompts (the task and the message context), and the format
    asked of the final answer is spelled out in the replay message context
    as in the fresh task. *)
Theorem prompts_carry_booking_id (booking_id : string) :
  occurs booking_id (replay_task booking_id) /\
  occurs booking_id (replay_context booking_id) /\
  occurs answer_format (replay_context booking_id) /\
  occurs answer_format (fresh_task booking_id).
Proof.
  split; [| split; [| split]].
  - unfold replay_task, id_sentence. find_occurrence.
  - unfold replay_context. find_occurrence.
  - unfold replay_context. find_occurrence.
  - unfold fresh_task. find_occurrence.
Qed.

(** ** A replay that finds nothing *)

(** X15. A replay that ends without a final answer is not followed by a
    fresh attempt: [fetch_hmm] returns the sentinel, the replay agent is
    the only agent built, and the stored trace stays as it was. *)
Theorem replay_without_answer_is_final (env : Env) (booking_id text : string)
    (v : pyval) (w w1 : World) (hist : History) :
  env_chat_google env (the_llm env) = None ->
  files w !! steps_file = Some text ->
  env_json_load env text = Ret v ->
  session env (replay_config env booking_id v) w = (Ret hist, w1) ->
  truthy (final_result hist) = false ->
  fetch_hmm env booking_id w = (Ret (Some no_results), w1) /\
  agents w1 = agents w ++ [replay_config env booking_id v] /\
  files w1 !! steps_file = Some text.
Proof.
  intros Hllm Hfile Hload Hsession Hans.
  pose proof (session_agents env (replay_config env booking_id v) w) as Ha.
  pose proof (session_files env (replay_config env booking_id v) w) as Hf.
  rewrite Hsession in Ha, Hf. unfold unchanged in Hf. simpl in Ha, Hf.
  split; [| split; [exact Ha | by rewrite Hf]].
  rewrite fetch_hmm_try, (fetch_body_replay env booking_id text) by done.
  by rewrite Hload, Hsession, Hans.
Qed.

Lemma replay_without_answer_is_final_witness :
  let env := scripted_env None in
  let w1 := snd (session env (replay_config env "SINI25432400" (PyList []))
                         replay_world) in
  files replay_world !! steps_file = Some "[]" /\
  fetch_hmm env "SINI25432400" replay_world = (Ret (Some no_results), w1) /\
  agents w1 =
    agents replay_world ++ [replay_config env "SINI25432400" (PyList [])] /\
  files w1 !! steps_file = Some "[]".
Proof.
  split; [reflexivity |].
  apply (replay_without_answer_is_final (scripted_env None) "SINI25432400" "[]"
           (PyList []) replay_world _
           (mkHistory None sample_actions true));
    reflexivity.
Defined.

(** ** The pacing hook and its odds *)












(** ** Errors that reach the caller *)

(** C3, as stated, fails: an interrupt from the keyboard during the agent
    run is not an instance of [Exception] and leaves [fetch_hmm]; so does
    an exception of [ChatGoogle(...)], which is raised before the [try]
    block. *)
Lemma errors_that_escape :
  ~ no_error_escapes interrupted_env "SINI25432400" empty_world /\
  ~ no_error_escapes no_client_env "SINI25432400" empty_world.
Proof.
  split; intros H.
  - exact (H (PyBaseException "KeyboardInterrupt")
             (snd (fetch_hmm interrupted_env "SINI25432400" empty_world))
             eq_refl).
  - exact (H (PyException "api_key must be set") empty_world eq_refl).
Qed.
